(** * Energy monitor dashboard: telemetry ingestion and session state

    A shallow embedding of the ingestion and state-management code of
    [streamlit_app.py]: the session-state initialisation block, the three
    MQTT callbacks ([on_connect], [on_disconnect], [on_message]) and
    [init_mqtt].

    Python values are an inductive type, [dict]s are finite maps, the
    [deque(maxlen=100)] is a list with eviction at the left end, and the
    callbacks run in a state-and-exception monad in which a raised
    exception keeps every write made before it, as in Python.  The monad
    also records the store after each write, so that what a reader on
    another thread can see between two statements is part of the model.

    Outside the model: the text printed by [print] and the rendering
    calls of Streamlit and Plotly.  [json.loads(msg.payload.decode())] is
    library code and is a parameter of the development, as is the clock
    behind [datetime.now()]. *)

From Stdlib Require Import ZArith String Floats List Lia Uint63.
From stdpp Require Import gmap strings list fin_maps.

Set Warnings "-inexact-float".
Local Open Scope string_scope.
Local Open Scope Z_scope.
Local Open Scope list_scope.

(** ** Python values *)

(** The values that reach the session state: what [json.loads] can
    return, and [datetime] objects. *)
#[warnings="-register-all"]
Inductive pyval : Type :=
| VNone
| VBool (b : bool)
| VInt (z : Z)
| VFloat (f : float)
| VStr (s : string)
| VList (l : list pyval)
| VDict (d : gmap string pyval)
| VDatetime (t : Z).

Abbreviation bytes := (list Byte.byte).
Abbreviation pydict := (gmap string pyval).

(** ** Exceptions *)

Inductive exn : Type :=
| ValueError          (* UnicodeDecodeError and JSONDecodeError are ValueErrors *)
| TypeError
| KeyError
| IndexError
| AttributeError
| OSError             (* socket errors raised by [client.connect] *)
| KeyboardInterrupt
| SystemExit.

(** [isinstance(e, Exception)]: the last two derive from [BaseException]
    only, and an [except Exception] clause lets them through. *)
Definition is_Exception (e : exn) : bool :=
  match e with
  | KeyboardInterrupt | SystemExit => false
  | _ => true
  end.

Inductive result (A : Type) : Type :=
| Ok (a : A)
| Raise (e : exn).
Arguments Ok {A} a.
Arguments Raise {A} e.

(** ** Operations of Python on values *)

Module Py.

(** [needle in hay] for two [str]. *)
Definition str_contains (needle hay : string) : bool :=
  match String.index 0 needle hay with
  | Some _ => true
  | None => false
  end.

Definition is_str (key : string) (v : pyval) : bool :=
  match v with
  | VStr s => bool_decide (s = key)
  | _ => false
  end.

(** [key in container], for a [str] key. *)
Definition contains (key : string) (container : pyval) : result bool :=
  match container with
  | VDict d => Ok (bool_decide (is_Some (d !! key)))
  | VStr s => Ok (str_contains key s)
  | VList l => Ok (existsb (is_str key) l)
  | _ => Raise TypeError
  end.

(** [container[key]], for a [str] key. *)
Definition getitem (container : pyval) (key : string) : result pyval :=
  match container with
  | VDict d =>
      match d !! key with
      | Some v => Ok v
      | None => Raise KeyError
      end
  | _ => Raise TypeError
  end.

(** [len(v)]. *)
Definition len (v : pyval) : result Z :=
  match v with
  | VStr s => Ok (Z.of_nat (String.length s))
  | VList l => Ok (Z.of_nat (List.length l))
  | VDict d => Ok (Z.of_nat (size d))
  | _ => Raise TypeError
  end.

(** [v[0]].  The keys of a decoded JSON object are [str], so the
    integer key [0] is never found in one. *)
Definition getitem0 (v : pyval) : result pyval :=
  match v with
  | VList (x :: _) => Ok x
  | VList [] => Raise IndexError
  | VStr (String c _) => Ok (VStr (String c EmptyString))
  | VStr EmptyString => Raise IndexError
  | VDict _ => Raise KeyError
  | _ => Raise TypeError
  end.

(** [v.get(key, default)]: only a [dict] has the method. *)
Definition get (v : pyval) (key : string) (default : pyval) : result pyval :=
  match v with
  | VDict d =>
      match d !! key with
      | Some x => Ok x
      | None => Ok default
      end
  | _ => Raise AttributeError
  end.

(** Truth value of a [str], as tested by [if s and t:]. *)
Definition truthy_str (s : string) : bool :=
  match s with
  | EmptyString => false
  | String _ _ => true
  end.

End Py.

(** ** [collections.deque] with [maxlen] *)

(** [d.append(x)] on a deque created with [maxlen]: the item goes to the
    right end, and when that makes the deque longer than [maxlen] one item
    is dropped from the left end. *)
Definition deque_append {A : Type} (maxlen : nat) (d : list A) (x : A) : list A :=
  let d' := d ++ [x] in
  if (maxlen <? List.length d')%nat then tail d' else d'.

(** ** The session state and the world around it *)

(** A [mqtt.Client] object, as far as this program touches it. *)
Record Client : Type := {
  on_connect_set : bool;
  on_disconnect_set : bool;
  on_message_set : bool;
  username_pw : option (string * string);
  loop_started : bool;
  disconnect_sent : bool;
  subscriptions : list string
}.

(** [st.session_state] once the initialisation block has run. *)
Record session_state : Type := {
  mqtt_connected : bool;
  latest_data : pydict;
  history : list pydict;           (* deque(maxlen=100), oldest first *)
  mqtt_client : option nat;        (* None, or a reference into the heap *)
  data_received : bool
}.

(** One call of [client.connect(host, port, keepalive)] as the network
    sees it. *)
Record connect_call : Type := {
  cc_credentials : option (string * string);
  cc_host : string;
  cc_port : Z;
  cc_keepalive : Z
}.

Record world : Type := {
  session : session_state;
  ticks : nat;                     (* calls of datetime.now() so far *)
  clients : list Client;           (* heap of mqtt.Client objects *)
  connects : list connect_call;    (* connect() calls issued, oldest first *)
  st_errors : list exn             (* st.error(...) messages shown *)
}.

Definition with_session (f : session_state → session_state) (w : world) : world :=
  {| session := f (session w); ticks := ticks w; clients := clients w;
     connects := connects w; st_errors := st_errors w |}.

Definition set_mqtt_connected (b : bool) (s : session_state) : session_state :=
  {| mqtt_connected := b; latest_data := latest_data s; history := history s;
     mqtt_client := mqtt_client s; data_received := data_received s |}.

Definition set_latest_data (d : pydict) (s : session_state) : session_state :=
  {| mqtt_connected := mqtt_connected s; latest_data := d; history := history s;
     mqtt_client := mqtt_client s; data_received := data_received s |}.

Definition set_history (h : list pydict) (s : session_state) : session_state :=
  {| mqtt_connected := mqtt_connected s; latest_data := latest_data s; history := h;
     mqtt_client := mqtt_client s; data_received := data_received s |}.

Definition set_mqtt_client (c : option nat) (s : session_state) : session_state :=
  {| mqtt_connected := mqtt_connected s; latest_data := latest_data s;
     history := history s; mqtt_client := c; data_received := data_received s |}.

Definition set_data_received (b : bool) (s : session_state) : session_state :=
  {| mqtt_connected := mqtt_connected s; latest_data := latest_data s;
     history := history s; mqtt_client := mqtt_client s; data_received := b |}.

(** ** The state-and-exception monad *)

(** A computation returns a value or raises, leaves a world behind in
    both cases, and lists the worlds it passed through: one entry per
    write, in program order. *)
Record outcome (A : Type) : Type := {
  res : result A;
  final : world;
  observed : list world
}.
Arguments res {A} o.
Arguments final {A} o.
Arguments observed {A} o.

Definition M (A : Type) : Type := world → outcome A.

Definition ret {A : Type} (a : A) : M A :=
  fun w => {| res := Ok a; final := w; observed := [] |}.

Definition raise {A : Type} (e : exn) : M A :=
  fun w => {| res := Raise e; final := w; observed := [] |}.

Definition bind {A B : Type} (m : M A) (k : A → M B) : M B :=
  fun w =>
    let o := m w in
    match res o with
    | Ok a =>
        let o' := k a (final o) in
        {| res := res o'; final := final o'; observed := observed o ++ observed o' |}
    | Raise e => {| res := Raise e; final := final o; observed := observed o |}
    end.

Declare Scope py_scope.
Delimit Scope py_scope with py.
Notation "'do' x <- m ; k" := (bind m (fun x => k))
  (at level 10, x name, m at level 100, k at level 200) : py_scope.
Notation "m ;;; k" := (bind m (fun _ => k))
  (at level 100, k at level 200, right associativity) : py_scope.

(** An operation of Python that touches no state. *)
Definition lift {A : Type} (r : result A) : M A :=
  match r with
  | Ok a => ret a
  | Raise e => raise e
  end.

(** One write to the world: the new world becomes visible to readers. *)
Definition write (f : world → world) : M unit :=
  fun w => {| res := Ok tt; final := f w; observed := [f w] |}.

Definition read {A : Type} (f : world → A) : M A :=
  fun w => {| res := Ok (f w); final := w; observed := [] |}.

(** [try: body except Exception as e: handler(e)]. *)
Definition try_except_Exception {A : Type} (body : M A) (handler : exn → M A) : M A :=
  fun w =>
    let o := body w in
    match res o with
    | Ok _ => o
    | Raise e =>
        if is_Exception e then
          let o' := handler e (final o) in
          {| res := res o'; final := final o'; observed := observed o ++ observed o' |}
        else o
    end.

Local Open Scope py_scope.

(** ** The program *)

Definition HISTORY_MAXLEN : nat := 100.

Definition MQTT_TOPIC : string := "application/1/device/9fb27692fb0c2381/event/up".

(** The [latest_data] dict of the initialisation block, created at time [t]. *)
Definition initial_latest_data (t : Z) : pydict :=
  <["voltage" := VInt 0]> (<["current" := VInt 0]> (<["power" := VInt 0]> (
  <["frequency" := VInt 0]> (<["powerFactor" := VInt 0]> (<["energy" := VInt 0]> (
  <["dailyKwh" := VInt 0]> (<["dailyCost" := VInt 0]> (<["timestamp" := VDatetime t]> (
  <["rssi" := VInt 0]> (<["snr" := VInt 0]> (<["devEUI" := VStr "--"]> (
  <["gateway" := VStr "--"]> ∅)))))))))))).

(** [client = mqtt.Client()]: no callback, no credentials, no loop. *)
Definition new_Client : Client :=
  {| on_connect_set := false; on_disconnect_set := false; on_message_set := false;
     username_pw := None; loop_started := false; disconnect_sent := false;
     subscriptions := [] |}.

Definition set_callbacks (c : Client) : Client :=
  {| on_connect_set := true; on_disconnect_set := true; on_message_set := true;
     username_pw := username_pw c; loop_started := loop_started c;
     disconnect_sent := disconnect_sent c; subscriptions := subscriptions c |}.

Definition username_pw_set (u p : string) (c : Client) : Client :=
  {| on_connect_set := on_connect_set c; on_disconnect_set := on_disconnect_set c;
     on_message_set := on_message_set c; username_pw := Some (u, p);
     loop_started := loop_started c; disconnect_sent := disconnect_sent c;
     subscriptions := subscriptions c |}.

Definition set_loop (b : bool) (c : Client) : Client :=
  {| on_connect_set := on_connect_set c; on_disconnect_set := on_disconnect_set c;
     on_message_set := on_message_set c; username_pw := username_pw c;
     loop_started := b; disconnect_sent := disconnect_sent c;
     subscriptions := subscriptions c |}.

(** [client.disconnect()]: the client sends DISCONNECT. *)
Definition disconnect (c : Client) : Client :=
  {| on_connect_set := on_connect_set c; on_disconnect_set := on_disconnect_set c;
     on_message_set := on_message_set c; username_pw := username_pw c;
     loop_started := loop_started c; disconnect_sent := true;
     subscriptions := subscriptions c |}.

Definition subscribe (topic : string) (c : Client) : Client :=
  {| on_connect_set := on_connect_set c; on_disconnect_set := on_disconnect_set c;
     on_message_set := on_message_set c; username_pw := username_pw c;
     loop_started := loop_started c; disconnect_sent := disconnect_sent c;
     subscriptions := subscriptions c ++ [topic] |}.

Definition with_clients (f : list Client → list Client) (w : world) : world :=
  {| session := session w; ticks := ticks w; clients := f (clients w);
     connects := connects w; st_errors := st_errors w |}.

(** A method call on the client object behind reference [c]. *)
Definition on_client (c : nat) (f : Client → Client) : M unit :=
  write (with_clients (alter f c)).

(** Allocates a client object and returns the reference to it. *)
Definition alloc_client (c : Client) : M nat :=
  fun w => {| res := Ok (List.length (clients w));
              final := with_clients (fun h => h ++ [c]) w;
              observed := [] |}.

(** Writes to the attributes of [st.session_state]. *)
Definition setitem_latest_data (key : string) (v : pyval) : M unit :=
  write (with_session (fun s => set_latest_data (<[key := v]> (latest_data s)) s)).

Definition update_latest_data (new : pydict) : M unit :=
  write (with_session (fun s => set_latest_data (new ∪ latest_data s) s)).

Definition history_append (entry : pydict) : M unit :=
  write (with_session (fun s =>
    set_history (deque_append HISTORY_MAXLEN (history s) entry) s)).

Definition assign_mqtt_connected (b : bool) : M unit :=
  write (with_session (set_mqtt_connected b)).

Definition assign_data_received (b : bool) : M unit :=
  write (with_session (set_data_received b)).

Definition assign_mqtt_client (c : option nat) : M unit :=
  write (with_session (set_mqtt_client c)).

(** [st.error(...)]. *)
Definition st_error (e : exn) : M unit :=
  fun w => {| res := Ok tt;
              final := {| session := session w; ticks := ticks w; clients := clients w;
                          connects := connects w; st_errors := st_errors w ++ [e] |};
              observed := [] |}.

Section App.

(** [json.loads(raw.decode())]: [None] when either call raises. *)
Variable json_loads : bytes → option pyval.

(** The [n]-th reading of the clock. *)
Variable datetime_now : nat → Z.

(** The configuration read from the secrets or the environment. *)
Variable MQTT_BROKER : string.
Variable MQTT_PORT : Z.
Variable MQTT_USERNAME : string.
Variable MQTT_PASSWORD : string.

(** [datetime.now()]. *)
Definition now : M pyval :=
  fun w => {| res := Ok (VDatetime (datetime_now (ticks w)));
              final := {| session := session w; ticks := S (ticks w);
                          clients := clients w; connects := connects w;
                          st_errors := st_errors w |};
              observed := [] |}.

(** The initialisation block, run once in a fresh session. *)
Definition initial_session : session_state :=
  {| mqtt_connected := false;
     latest_data := initial_latest_data (datetime_now 0);
     history := [];
     mqtt_client := None;
     data_received := false |}.

Definition initial_world : world :=
  {| session := initial_session; ticks := 1; clients := []; connects := [];
     st_errors := [] |}.

(** *** Callbacks *)

Definition on_connect (client : nat) (rc : Z) : M unit :=
  if bool_decide (rc = 0) then
    assign_mqtt_connected true ;;;
    on_client client (subscribe MQTT_TOPIC)
  else
    assign_mqtt_connected false.

Definition on_disconnect (client : nat) (rc : Z) : M unit :=
  assign_mqtt_connected false.

Definition loads (raw : bytes) : M pyval :=
  match json_loads raw with
  | Some v => ret v
  | None => raise ValueError
  end.

(** The three blocks of the [try] of [on_message], named after their
    comments in the source. *)

(* Extract device info *)
Definition extract_device_info (payload : pyval) : M unit :=
  do has_dev <- lift (Py.contains "devEUI" payload);
  if has_dev : bool then
    do dev <- lift (Py.getitem payload "devEUI");
    setitem_latest_data "devEUI" dev
  else ret tt.

(* Extract signal info *)
Definition extract_signal_info (payload : pyval) : M unit :=
  do has_rx <- lift (Py.contains "rxInfo" payload);
  do nonempty <-
    (if has_rx : bool then
       do rxs <- lift (Py.getitem payload "rxInfo");
       do n <- lift (Py.len rxs);
       ret (0 <? n)
     else ret false);
  if nonempty : bool then
    do rxs <- lift (Py.getitem payload "rxInfo");
    do rxInfo <- lift (Py.getitem0 rxs);
    do rssi <- lift (Py.get rxInfo "rssi" (VInt 0));
    setitem_latest_data "rssi" rssi ;;;
    do snr <- lift (Py.get rxInfo "loRaSNR" (VInt 0));
    setitem_latest_data "snr" snr ;;;
    do gw_id <- lift (Py.get rxInfo "gatewayID" (VStr "--"));
    do gw <- lift (Py.get rxInfo "name" gw_id);
    setitem_latest_data "gateway" gw
  else ret tt.

(* Extract object data *)
Definition extract_object_data (payload : pyval) : M unit :=
  do has_obj <- lift (Py.contains "object" payload);
  if has_obj : bool then
    do obj <- lift (Py.getitem payload "object");
    do voltage <- lift (Py.get obj "voltage" (VInt 0));
    do current <- lift (Py.get obj "current" (VInt 0));
    do power <- lift (Py.get obj "power" (VInt 0));
    do frequency <- lift (Py.get obj "frequency" (VInt 0));
    do powerFactor <- lift (Py.get obj "powerFactor" (VInt 0));
    do energy <- lift (Py.get obj "energy" (VInt 0));
    do dailyKwh <- lift (Py.get obj "dailyKwh" (VInt 0));
    do dailyCost <- lift (Py.get obj "dailyCost" (VInt 0));
    do timestamp <- now;
    update_latest_data
      (<["voltage" := voltage]> (<["current" := current]> (<["power" := power]> (
       <["frequency" := frequency]> (<["powerFactor" := powerFactor]> (
       <["energy" := energy]> (<["dailyKwh" := dailyKwh]> (
       <["dailyCost" := dailyCost]> (<["timestamp" := timestamp]> ∅))))))))) ;;;
    (* Add to history *)
    do timestamp' <- now;
    do power' <- lift (Py.get obj "power" (VInt 0));
    do voltage' <- lift (Py.get obj "voltage" (VInt 0));
    do current' <- lift (Py.get obj "current" (VInt 0));
    history_append
      (<["timestamp" := timestamp']> (<["power" := power']> (
       <["voltage" := voltage']> (<["current" := current']> ∅)))) ;;;
    assign_data_received true
  else ret tt.

Definition on_message_try (raw : bytes) : M unit :=
  do payload <- loads raw;
  extract_device_info payload ;;;
  extract_signal_info payload ;;;
  extract_object_data payload.

Definition on_message (raw : bytes) : M unit :=
  try_except_Exception (on_message_try raw) (fun e => ret tt).

(** *** Connecting *)

(** [client.connect(host, port, keepalive)]: the call reaches the
    network with the credentials the client holds; [conn] is what the
    network answers, [Some e] when the call raises [e]. *)
Definition client_connect (client : nat) (host : string) (port keepalive : Z)
    (conn : option exn) : M unit :=
  fun w =>
    let creds := match clients w !! client with
                 | Some c => username_pw c
                 | None => None
                 end in
    {| res := match conn with Some e => Raise e | None => Ok tt end;
       final := {| session := session w; ticks := ticks w; clients := clients w;
                   connects := connects w ++
                     [{| cc_credentials := creds; cc_host := host; cc_port := port;
                         cc_keepalive := keepalive |}];
                   st_errors := st_errors w |};
       observed := [] |}.

Definition init_mqtt (conn : option exn) : M bool :=
  do current <- read (fun w => mqtt_client (session w));
  match current with
  | None =>
      do client <- alloc_client new_Client;
      on_client client set_callbacks ;;;
      (* Set credentials if provided *)
      (if Py.truthy_str MQTT_USERNAME && Py.truthy_str MQTT_PASSWORD then
         on_client client (username_pw_set MQTT_USERNAME MQTT_PASSWORD)
       else ret tt) ;;;
      try_except_Exception
        (client_connect client MQTT_BROKER MQTT_PORT 60 conn ;;;
         on_client client (set_loop true) ;;;
         assign_mqtt_client (Some client) ;;;
         ret true)
        (fun e => st_error e ;;; ret false)
  | Some _ => ret true
  end.

(** The handler of the Reconnect button.  [loop_stop] ends the network
    loop of the client and [disconnect] sends DISCONNECT; the handler
    itself writes [mqtt_client] only.  A callback that the library makes
    in response is an event of its own. *)
Definition reconnect_mqtt (conn : option exn) : M bool :=
  do current <- read (fun w => mqtt_client (session w));
  match current with
  | Some client =>
      on_client client (set_loop false) ;;;
      on_client client disconnect ;;;
      assign_mqtt_client None
  | None => ret tt
  end ;;;
  init_mqtt conn.

(** *** The program driven by its environment *)

Inductive event : Type :=
| Message (raw : bytes)                  (* the transport delivers a message *)
| Connack (client : nat) (rc : Z)        (* the broker answers a CONNECT *)
| Disconnected (client : nat) (rc : Z)   (* the connection is gone *)
| ScriptRun (conn : option exn)          (* the script reaches init_mqtt() *)
| ReconnectButton (conn : option exn).

Definition handle (ev : event) : M unit :=
  match ev with
  | Message raw => on_message raw
  | Connack client rc => on_connect client rc
  | Disconnected client rc => on_disconnect client rc
  | ScriptRun conn => do connected <- init_mqtt conn; ret tt
  | ReconnectButton conn => do connected <- reconnect_mqtt conn; ret tt
  end.

(** The world after the events, and the worlds a reader could see on
    the way: one per write. *)
Fixpoint run (evs : list event) (w : world) : world :=
  match evs with
  | [] => w
  | ev :: evs' => run evs' (final (handle ev w))
  end.

Fixpoint visible (evs : list event) (w : world) : list world :=
  match evs with
  | [] => []
  | ev :: evs' => observed (handle ev w) ++ visible evs' (final (handle ev w))
  end.

(** *** The read path *)

(** What the expressions of the main loop evaluate to. *)
Definition read_latest_data (w : world) : pyval := VDict (latest_data (session w)).
Definition read_data_received (w : world) : bool := data_received (session w).
Definition read_mqtt_connected (w : world) : bool := mqtt_connected (session w).
Definition read_history (w : world) : list pydict := history (session w).

End App.

(** ** Vocabulary of the statements *)

(** The thirteen keys of a sample in [latest_data], the four that the
    signal and device blocks write, and the four of a history entry. *)
Definition sample_keys : gset string :=
  {[ "voltage"; "current"; "power"; "frequency"; "powerFactor"; "energy";
     "dailyKwh"; "dailyCost"; "timestamp"; "rssi"; "snr"; "devEUI"; "gateway" ]}.

Definition meta_keys : gset string := {[ "devEUI"; "rssi"; "snr"; "gateway" ]}.

Definition history_keys : gset string :=
  {[ "timestamp"; "power"; "voltage"; "current" ]}.

(** The numeric fields read from [object]. *)
Definition numeric_fields : list string :=
  [ "voltage"; "current"; "power"; "frequency"; "powerFactor"; "energy";
    "dailyKwh"; "dailyCost" ].

(** [obj.get(key, 0)] on a dict. *)
Definition get0 (obj : pydict) (key : string) : pyval :=
  default (VInt 0) (obj !! key).

(** The dict passed to [latest_data.update] and the dict appended to the
    history, for the object [obj] of a message. *)
Definition sample_update (obj : pydict) (t : Z) : pydict :=
  <["voltage" := get0 obj "voltage"]> (<["current" := get0 obj "current"]> (
  <["power" := get0 obj "power"]> (<["frequency" := get0 obj "frequency"]> (
  <["powerFactor" := get0 obj "powerFactor"]> (<["energy" := get0 obj "energy"]> (
  <["dailyKwh" := get0 obj "dailyKwh"]> (<["dailyCost" := get0 obj "dailyCost"]> (
  <["timestamp" := VDatetime t]> ∅)))))))).

Definition history_entry (obj : pydict) (t : Z) : pydict :=
  <["timestamp" := VDatetime t]> (<["power" := get0 obj "power"]> (
  <["voltage" := get0 obj "voltage"]> (<["current" := get0 obj "current"]> ∅))).

(** The shapes of [rxInfo] that the signal block gets through: absent,
    of length zero, or a list that starts with a dict. *)
Definition rxInfo_accepted (payload : pydict) : bool :=
  match payload !! "rxInfo" with
  | None => true
  | Some (VList []) => true
  | Some (VList (VDict _ :: _)) => true
  | Some (VStr EmptyString) => true
  | Some (VDict m) => bool_decide (size m = 0%nat)
  | Some _ => false
  end.

(** The [object] of a decoded payload that [on_message] stores: the
    payload is a dict, its [rxInfo] is accepted and its [object] is a
    dict. *)
Definition stored_object (decoded : option pyval) : option pydict :=
  match decoded with
  | Some (VDict payload) =>
      if rxInfo_accepted payload then
        match payload !! "object" with
        | Some (VDict obj) => Some obj
        | _ => None
        end
      else None
  | _ => None
  end.

(** The three writes of the object block, on the world [w] in which the
    block starts: [latest_data] updated, then the history appended, then
    the flag set.  Each of the first two reads the clock once. *)
Definition tick (w : world) : world :=
  {| session := session w; ticks := S (ticks w); clients := clients w;
     connects := connects w; st_errors := st_errors w |}.

Definition store1 (datetime_now : nat → Z) (obj : pydict) (w : world) : world :=
  with_session
    (fun s => set_latest_data
                (sample_update obj (datetime_now (ticks w)) ∪ latest_data s) s)
    (tick w).

Definition store2 (datetime_now : nat → Z) (obj : pydict) (w : world) : world :=
  with_session
    (fun s => set_history
                (deque_append HISTORY_MAXLEN (history s)
                   (history_entry obj (datetime_now (S (ticks w))))) s)
    (tick (store1 datetime_now obj w)).

Definition store3 (datetime_now : nat → Z) (obj : pydict) (w : world) : world :=
  with_session (set_data_received true) (store2 datetime_now obj w).

(** A payload whose object block stores nothing: no dict under
    [object]. *)
Definition not_storable (payload : pyval) : Prop :=
  match payload with
  | VDict d =>
      match d !! "object" with
      | Some (VDict _) => False
      | _ => True
      end
  | _ => True
  end.

(** An exception that an [except Exception] clause catches, or no
    exception. *)
Definition safe_res {A : Type} (r : result A) : Prop :=
  match r with
  | Ok _ => True
  | Raise e => is_Exception e = true
  end.

(** The fields that [on_message] may write outside its object block are
    the four [meta_keys] of [latest_data]; everything else is the same in
    [w'] as in [w]. *)
Record only_meta_changed (w w' : world) : Prop := {
  omc_connected : mqtt_connected (session w') = mqtt_connected (session w);
  omc_latest : ∀ k, k ∉ meta_keys →
    latest_data (session w') !! k = latest_data (session w) !! k;
  omc_dom : dom (latest_data (session w)) ⊆ dom (latest_data (session w'));
  omc_history : history (session w') = history (session w);
  omc_client : mqtt_client (session w') = mqtt_client (session w);
  omc_received : data_received (session w') = data_received (session w);
  omc_ticks : ticks w' = ticks w;
  omc_clients : clients w' = clients w;
  omc_connects : connects w' = connects w;
  omc_errors : st_errors w' = st_errors w
}.

(** What every handler but a storing [on_message] keeps: the history,
    the flag and the readings of [latest_data]. *)
Record readings_kept (w w' : world) : Prop := {
  rk_latest : ∀ k, k ∉ meta_keys →
    latest_data (session w') !! k = latest_data (session w) !! k;
  rk_dom : dom (latest_data (session w)) ⊆ dom (latest_data (session w'));
  rk_history : history (session w') = history (session w);
  rk_received : data_received (session w') = data_received (session w)
}.

(** The telemetry of the store: everything but the connection. *)
Definition same_telemetry (w w' : world) : Prop :=
  latest_data (session w') = latest_data (session w) ∧
  history (session w') = history (session w) ∧
  data_received (session w') = data_received (session w).

(** A computation every step of which stays within a relation [R], and
    one that raises nothing that escapes [except Exception]. *)
Definition preserves (R : relation world) {A : Type} (m : M A) : Prop :=
  ∀ w, R w (final (m w)) ∧ Forall (R w) (observed (m w)).

Definition safe {A : Type} (m : M A) : Prop :=
  ∀ w, safe_res (res (m w)).

(** A computation that writes nothing. *)
Definition quiet {A : Type} (m : M A) : Prop :=
  ∀ w, final (m w) = w ∧ observed (m w) = [].

(** The history entries of a run of stored objects, the first of which
    is processed when the clock has been read [t] times: each message
    reads the clock twice, and the entry takes the second reading. *)
Fixpoint entries_from (datetime_now : nat → Z) (t : nat) (objs : list pydict)
    : list pydict :=
  match objs with
  | [] => []
  | obj :: objs' =>
      history_entry obj (datetime_now (S t))
        :: entries_from datetime_now (S (S t)) objs'
  end.

(** The client that [init_mqtt] prepares before it calls [connect]. *)
Definition configured_client (username password : string) : Client :=
  let client := set_callbacks new_Client in
  if Py.truthy_str username && Py.truthy_str password
  then username_pw_set username password client
  else client.

(** The object that an event stores, if it stores one. *)
Definition event_object (json_loads : bytes → option pyval) (ev : event)
    : option pydict :=
  match ev with
  | Message raw => stored_object (json_loads raw)
  | _ => None
  end.



Definition history_entries_projected (s : session_state) : Prop :=
  Forall (fun entry : pydict => dom entry = history_keys) (history s).


(** ** Inputs for the examples *)

Module Demo.

(** A decoder that knows five payloads, each by a one-byte message: two
    readings, a message with a device id and no [object], a message whose
    [object] is a number, and one whose [rxInfo] is a dict instead of a
    list; everything else fails to decode. *)
Definition object1 : pydict :=
  <["voltage" := VFloat 221.4%float]> (<["current" := VFloat 1.2%float]> (
  <["power" := VInt 268]> ∅)).

Definition payload1 : pydict := <["object" := VDict object1]> ∅.

Definition object2 : pydict := <["power" := VInt 300]> ∅.

Definition payload2 : pydict := <["object" := VDict object2]> ∅.

Definition device_only : pydict := <["devEUI" := VStr "9fb27692fb0c2381"]> ∅.

Definition object_not_a_dict : pydict := <["object" := VInt 5]> ∅.

Definition rxInfo_not_a_list : pydict :=
  <["rxInfo" := VDict (<["rssi" := VInt (-60)]> ∅)]> (
  <["object" := VDict object2]> ∅).

Definition json_loads (raw : bytes) : option pyval :=
  match raw with
  | [Byte.x31] => Some (VDict payload1)
  | [Byte.x32] => Some (VDict payload2)
  | [Byte.x33] => Some (VDict device_only)
  | [Byte.x34] => Some (VDict object_not_a_dict)
  | [Byte.x35] => Some (VDict rxInfo_not_a_list)
  | _ => None
  end.

Definition datetime_now (n : nat) : Z := 1700000000 + Z.of_nat n.

Definition world0 : world := initial_world datetime_now.

(** A configuration with a user name and no password. *)
Definition MQTT_BROKER : string := "localhost".
Definition MQTT_PORT : Z := 1883.
Definition MQTT_USERNAME : string := "monitor".
Definition MQTT_PASSWORD : string := "".

Definition handle : event → M unit :=
  handle json_loads datetime_now MQTT_BROKER MQTT_PORT MQTT_USERNAME MQTT_PASSWORD.

Definition run : list event → world → world :=
  run json_loads datetime_now MQTT_BROKER MQTT_PORT MQTT_USERNAME MQTT_PASSWORD.

Definition visible : list event → world → list world :=
  visible json_loads datetime_now MQTT_BROKER MQTT_PORT MQTT_USERNAME MQTT_PASSWORD.

Definition init_mqtt : option exn → M bool :=
  init_mqtt MQTT_BROKER MQTT_PORT MQTT_USERNAME MQTT_PASSWORD.

End Demo.

(** ** The store after each block of [on_message] *)

(** [st.session_state.latest_data[key] = v]. *)
Definition set_latest (key : string) (v : pyval) (w : world) : world :=
  with_session (fun s => set_latest_data (<[key := v]> (latest_data s)) s) w.

(** What the three blocks leave behind on a payload that is a dict: the
    device block writes [devEUI] when the payload has one; the signal
    block writes [rssi], [snr] and [gateway] when [rxInfo] is a list that
    starts with a dict, and nothing otherwise, also when it raises; the
    object block makes its three writes when the object is stored. *)
Definition device_written (payload : pydict) (w : world) : world :=
  match payload !! "devEUI" with
  | Some dev => set_latest "devEUI" dev w
  | None => w
  end.

Definition signal_written (payload : pydict) (w : world) : world :=
  match payload !! "rxInfo" with
  | Some (VList (VDict rx :: _)) =>
      set_latest "gateway"
        (default (default (VStr "--") (rx !! "gatewayID")) (rx !! "name"))
        (set_latest "snr" (default (VInt 0) (rx !! "loRaSNR"))
           (set_latest "rssi" (default (VInt 0) (rx !! "rssi")) w))
  | _ => w
  end.

Definition object_written (datetime_now : nat → Z) (payload : pydict) (w : world)
    : world :=
  match stored_object (Some (VDict payload)) with
  | Some obj => store3 datetime_now obj w
  | None => w
  end.

(** ** The connection status and the clock *)


(** What [init_mqtt] and the Reconnect handler keep: everything a reader
    of the store looks at, and the clock. *)
Record connection_frame (w w' : world) : Prop := {
  cf_connected : mqtt_connected (session w') = mqtt_connected (session w);
  cf_latest : latest_data (session w') = latest_data (session w);
  cf_history : history (session w') = history (session w);
  cf_received : data_received (session w') = data_received (session w);
  cf_ticks : ticks w' = ticks w
}.

(** ** The clients *)

(** At most one client has its network loop running, and it is the one
    the session refers to. *)
Definition one_loop (w : world) : Prop :=
  ∀ i cl, clients w !! i = Some cl → loop_started cl = true →
          mqtt_client (session w) = Some i.

(** The client that the session refers to exists, has the three callbacks
    registered and has its loop running. *)
Definition client_ready (w : world) : Prop :=
  ∀ c, mqtt_client (session w) = Some c →
       ∃ cl, clients w !! c = Some cl ∧ loop_started cl = true ∧
             on_connect_set cl = true ∧ on_disconnect_set cl = true ∧
             on_message_set cl = true.

(** The world in which the Reconnect handler calls [init_mqtt], when the
    session refers to client [c]. *)
Definition client_dropped (c : nat) (w : world) : world :=
  with_session (set_mqtt_client None)
    (with_clients (alter disconnect c)
       (with_clients (alter (set_loop false) c) w)).

(** ** The configuration block *)

(** The four names that the configuration block binds. *)
Record config : Type := {
  cfg_broker : pyval;
  cfg_port : pyval;
  cfg_username : pyval;
  cfg_password : pyval
}.

Definition rbind {A B : Type} (r : result A) (k : A → result B) : result B :=
  match r with
  | Ok a => k a
  | Raise e => Raise e
  end.

(** [st.secrets[key]]; without a secrets file every access raises. *)
Definition st_secrets (secrets : option pydict) (key : string) : result pyval :=
  match secrets with
  | Some s => Py.getitem (VDict s) key
  | None => Raise OSError
  end.

(** [os.getenv(key, dflt)]. *)
Definition os_getenv (environ : gmap string string) (key dflt : string) : string :=
  default dflt (environ !! key).

(** The body of the [try]. *)
Definition config_from_secrets (secrets : option pydict) : result config :=
  rbind (st_secrets secrets "mqtt") (fun mqtt =>
  rbind (Py.getitem mqtt "broker") (fun broker =>
  rbind (st_secrets secrets "mqtt") (fun mqtt =>
  rbind (Py.getitem mqtt "port") (fun port =>
  rbind (st_secrets secrets "mqtt") (fun mqtt =>
  rbind (Py.get mqtt "username" (VStr "")) (fun username =>
  rbind (st_secrets secrets "mqtt") (fun mqtt =>
  rbind (Py.get mqtt "password" (VStr "")) (fun password =>
  Ok {| cfg_broker := broker; cfg_port := port;
        cfg_username := username; cfg_password := password |})))))))).

(** The body of the [except]; [int] is Python's [int] on a [str], [None]
    when it raises [ValueError]. *)
Definition config_from_environ (int : string → option Z)
    (environ : gmap string string) : result config :=
  let broker := os_getenv environ "MQTT_BROKER" "localhost" in
  match int (os_getenv environ "MQTT_PORT" "1883") with
  | Some port =>
      Ok {| cfg_broker := VStr broker; cfg_port := VInt port;
            cfg_username := VStr (os_getenv environ "MQTT_USERNAME" "");
            cfg_password := VStr (os_getenv environ "MQTT_PASSWORD" "") |}
  | None => Raise ValueError
  end.

(** The configuration block: a bare [except:] catches whatever the
    [try] raises; what its own body raises goes on. *)
Definition load_config (int : string → option Z) (secrets : option pydict)
    (environ : gmap string string) : result config :=
  match config_from_secrets secrets with
  | Ok c => Ok c
  | Raise _ => config_from_environ int environ
  end.

(** Secrets that have an [mqtt] table with a broker and a port. *)
Definition secrets_complete (secrets : option pydict) : bool :=
  match secrets with
  | Some s =>
      match s !! "mqtt" with
      | Some (VDict mqtt) =>
          bool_decide (is_Some (mqtt !! "broker")) &&
          bool_decide (is_Some (mqtt !! "port"))
      | _ => false
      end
  | None => false
  end.

(** ** The signal indicators of the main loop *)

(** An [int] as a [float]; exact for the small constants of the program. *)
Definition Z_to_float (c : Z) : float :=
  if c <? 0 then PrimFloat.opp (PrimFloat.of_uint63 (Uint63.of_Z (- c)))
  else PrimFloat.of_uint63 (Uint63.of_Z c).

(** [v > c] for an [int] literal [c]: defined on numbers ([bool] counts
    as [int]), a [TypeError] on everything else. *)
Definition py_gt_int (v : pyval) (c : Z) : result bool :=
  match v with
  | VInt z => Ok (c <? z)
  | VBool b => Ok (c <? (if b then 1 else 0))
  | VFloat f => Ok (PrimFloat.ltb (Z_to_float c) f)
  | _ => Raise TypeError
  end.


(** ["🟢" if rssi > -85 else "🟡" if rssi > -100 else "🔴"]. *)
Definition rssi_status (rssi : pyval) : result string :=
  rbind (py_gt_int rssi (-85)) (fun good =>
    if good : bool then Ok "🟢"
    else rbind (py_gt_int rssi (-100)) (fun fair =>
           if fair : bool then Ok "🟡" else Ok "🔴")).

(** ["🟢" if snr > 0 else "🟡" if snr > -5 else "🔴"]. *)
Definition snr_status (snr : pyval) : result string :=
  rbind (py_gt_int snr 0) (fun good =>
    if good : bool then Ok "🟢"
    else rbind (py_gt_int snr (-5)) (fun fair =>
           if fair : bool then Ok "🟡" else Ok "🔴")).

(** A message that writes the signal fields: its payload is a dict whose
    [rxInfo] is a list that starts with a dict. *)
Definition has_signal (json_loads : bytes → option pyval) (ev : event) : bool :=
  match ev with
  | Message raw =>
      match json_loads raw with
      | Some (VDict payload) =>
          match payload !! "rxInfo" with
          | Some (VList (VDict _ :: _)) => true
          | _ => false
          end
      | _ => false
      end
  | _ => false
  end.

(** ** More inputs for the examples *)

Module Samples.

(** A second decoder: an uplink with a device id, one gateway without a
    name and a reading; a JSON list; and an uplink whose gateway reports
    its signal strength as a string. *)
Definition gateway : pydict :=
  <["rssi" := VInt (-97)]> (<["loRaSNR" := VFloat 7.5%float]> (
  <["gatewayID" := VStr "a84041ffff1ec2f8"]> ∅)).

Definition uplink : pydict :=
  <["devEUI" := VStr "9fb27692fb0c2381"]> (
  <["rxInfo" := VList [VDict gateway]]> (
  <["object" := VDict Demo.object1]> ∅)).

Definition a_list : pyval := VList [VStr "object"; VStr "devEUI"].

Definition odd_gateway : pydict :=
  <["rssi" := VStr "strong"]> (<["loRaSNR" := VNone]> ∅).

Definition odd_uplink : pydict :=
  <["rxInfo" := VList [VDict odd_gateway]]> (
  <["object" := VDict Demo.object2]> ∅).

Definition json_loads (raw : bytes) : option pyval :=
  match raw with
  | [Byte.x61] => Some (VDict uplink)
  | [Byte.x62] => Some a_list
  | [Byte.x63] => Some (VDict odd_uplink)
  | _ => None
  end.

Definition on_message : bytes → M unit := on_message json_loads Demo.datetime_now.

Definition run : list event → world → world :=
  run json_loads Demo.datetime_now Demo.MQTT_BROKER Demo.MQTT_PORT
    Demo.MQTT_USERNAME Demo.MQTT_PASSWORD.

(** A world in which a client is stored and connected. *)
Definition connected : world := run [ScriptRun None; Connack 0 0] Demo.world0.

(** [int] on the two port numbers of the examples. *)
Definition int (s : string) : option Z :=
  if bool_decide (s = "1883") then Some 1883
  else if bool_decide (s = "8883") then Some 8883
  else None.

Definition mqtt_table : pydict :=
  <["broker" := VStr "broker.example.org"]> (<["port" := VInt 8883]> ∅).

Definition secrets : pydict := <["mqtt" := VDict mqtt_table]> ∅.

(** Secrets with credentials and no port. *)
Definition partial_secrets : pydict :=
  <["mqtt" := VDict (<["broker" := VStr "broker.example.org"]> (
                     <["username" := VStr "monitor"]> (
                     <["password" := VStr "secret"]> ∅)))]> ∅.

Definition environ : gmap string string := <["MQTT_PORT" := "8883"]> ∅.

End Samples.

(** * Properties *)

(** ** The deque *)

Section Deque.
Context {A : Type}.
Implicit Types (d xs : list A) (x : A) (N : nat).

Lemma deque_append_drop N d x :
  (List.length d ≤ N)%nat →
  deque_append N d x = drop (List.length (d ++ [x]) - N) (d ++ [x]).
Proof.
  intros Hd. unfold deque_append. rewrite length_app. cbn [List.length].
  destruct (Nat.ltb_spec N (List.length d + 1)) as [Hlt|Hge].
  - replace (List.length d + 1 - N)%nat with 1%nat by lia.
    by destruct (d ++ [x]).
  - by replace (List.length d + 1 - N)%nat with 0%nat by lia.
Qed.

Lemma deque_append_length N d x :
  (List.length d ≤ N)%nat → (List.length (deque_append N d x) ≤ N)%nat.
Proof.
  intros Hd. rewrite deque_append_drop by done.
  rewrite length_drop, length_app. cbn [List.length]. lia.
Qed.

Lemma deque_fold_drop N xs : ∀ d,
  (List.length d ≤ N)%nat →
  fold_left (deque_append N) xs d = drop (List.length (d ++ xs) - N) (d ++ xs).
Proof.
  induction xs as [|x xs IH]; intros d Hd.
  - cbn [fold_left]. rewrite app_nil_r.
    by replace (List.length d - N)%nat with 0%nat by lia.
  - cbn [fold_left]. rewrite IH by by apply deque_append_length.
    rewrite deque_append_drop by done.
    rewrite !length_app, length_drop, !length_app. cbn [List.length].
    set (a := (List.length d + 1 - N)%nat).
    assert (Ha : (a ≤ List.length (d ++ [x]))%nat)
      by (rewrite length_app; cbn [List.length]; lia).
    rewrite <- (drop_app_le (d ++ [x]) xs a) by done.
    rewrite drop_drop, <- app_assoc. cbn [app]. f_equal. lia.
Qed.



Lemma deque_append_elem N d x y :
  y ∈ deque_append N d x → y ∈ d ∨ y = x.
Proof.
  unfold deque_append. intros Hy.
  assert (Hin : y ∈ d ++ [x]).
  { destruct (_ <? _)%nat; [|done]. destruct (d ++ [x]); [done|].
    apply elem_of_cons. by right. }
  apply elem_of_app in Hin as [?|Hin]; [by left|right].
  by apply list_elem_of_singleton in Hin.
Qed.

End Deque.

(** ** The monad *)

Section Monad.
Context {A B : Type}.

Lemma bind_unfold (m : M A) (k : A → M B) w :
  bind m k w =
  match res (m w) with
  | Ok a =>
      {| res := res (k a (final (m w))); final := final (k a (final (m w)));
         observed := observed (m w) ++ observed (k a (final (m w))) |}
  | Raise e => {| res := Raise e; final := final (m w); observed := observed (m w) |}
  end.
Proof. reflexivity. Qed.

Lemma preserves_bind (R : relation world) `{!PreOrder R} (m : M A) (k : A → M B) :
  preserves R m → (∀ a, preserves R (k a)) → preserves R (bind m k).
Proof.
  intros Hm Hk w. rewrite bind_unfold. destruct (Hm w) as [Hf Ho].
  destruct (res (m w)) as [a|e]; cbn [final observed]; [|done].
  destruct (Hk a (final (m w))) as [Hf' Ho']. split.
  - by etrans.
  - apply Forall_app. split; [done|].
    eapply Forall_impl; [exact Ho'|]. intros w' Hw'. by etrans.
Qed.

Lemma safe_bind (m : M A) (k : A → M B) :
  safe m → (∀ a, safe (k a)) → safe (bind m k).
Proof.
  intros Hm Hk w. rewrite bind_unfold. specialize (Hm w).
  destruct (res (m w)) as [a|e]; cbn [res]; [apply Hk|done].
Qed.

Lemma quiet_bind (m : M A) (k : A → M B) :
  quiet m → (∀ a, quiet (k a)) → quiet (bind m k).
Proof.
  intros Hm Hk w. rewrite bind_unfold. destruct (Hm w) as [Hf Ho].
  destruct (res (m w)) as [a|e]; cbn [final observed]; [|done].
  destruct (Hk a (final (m w))) as [Hf' Ho']. rewrite Hf', Ho, Ho'. by rewrite Hf.
Qed.

Lemma preserves_ret (R : relation world) `{!Reflexive R} (a : A) : preserves R (ret a).
Proof. intros w. by split. Qed.

Lemma preserves_lift (R : relation world) `{!Reflexive R} (r : result A) :
  preserves R (lift r).
Proof. intros w. destruct r; by split. Qed.

Lemma preserves_write (R : relation world) (f : world → world) :
  (∀ w, R w (f w)) → preserves R (write f).
Proof. intros Hf w. split; [apply Hf|]. repeat constructor. apply Hf. Qed.

Lemma safe_ret (a : A) : safe (ret a).
Proof. by intros w. Qed.

Lemma safe_lift (r : result A) : safe_res r → safe (lift r).
Proof. intros Hr w. by destruct r. Qed.

Lemma quiet_ret (a : A) : quiet (ret a).
Proof. by intros w. Qed.

Lemma quiet_lift (r : result A) : quiet (lift r).
Proof. intros w. by destruct r. Qed.

Lemma quiet_preserves (R : relation world) `{!Reflexive R} (m : M A) :
  quiet m → preserves R m.
Proof. intros Hm w. destruct (Hm w) as [-> ->]. by split. Qed.

Lemma try_except_unfold (body : M A) (handler : exn → M A) w :
  try_except_Exception body handler w =
  match res (body w) with
  | Ok _ => body w
  | Raise e =>
      if is_Exception e then
        {| res := res (handler e (final (body w)));
           final := final (handler e (final (body w)));
           observed := observed (body w) ++ observed (handler e (final (body w))) |}
      else body w
  end.
Proof. reflexivity. Qed.

End Monad.

Lemma safe_write (f : world → world) : safe (write f).
Proof. by intros w. Qed.

Lemma bind_lift_ok {A B : Type} (a : A) (k : A → M B) w :
  bind (lift (Ok a)) k w = k a w.
Proof. unfold bind. cbn. by destruct (k a w). Qed.

Lemma bind_ret {A B : Type} (a : A) (k : A → M B) w :
  bind (ret a) k w = k a w.
Proof. unfold bind. cbn. by destruct (k a w). Qed.

Lemma bind_assoc {A B C : Type} (m : M A) (k : A → M B) (k' : B → M C) w :
  bind (bind m k) k' w = bind m (fun a => bind (k a) k') w.
Proof.
  unfold bind. destruct (m w) as [[a|e] w1 o1]; cbn; [|done].
  destruct (k a w1) as [[b|e] w2 o2]; cbn; [|done].
  by rewrite app_assoc.
Qed.

Lemma bind_lift_raise {A B : Type} e (k : A → M B) w :
  bind (lift (Raise e)) k w = {| res := Raise e; final := w; observed := [] |}.
Proof. reflexivity. Qed.

Lemma bind_write {B : Type} (f : world → world) (k : unit → M B) w :
  bind (write f) k w =
  {| res := res (k tt (f w)); final := final (k tt (f w));
     observed := f w :: observed (k tt (f w)) |}.
Proof. reflexivity. Qed.

Ltac mstep :=
  first [ rewrite bind_assoc | rewrite bind_lift_ok | rewrite bind_ret
        | rewrite bind_lift_raise ]; cbv beta.

(** The operations of Python raise only what [except Exception] catches. *)
Lemma safe_res_contains key v : safe_res (Py.contains key v).
Proof. by destruct v. Qed.

Lemma safe_res_getitem v key : safe_res (Py.getitem v key).
Proof. destruct v as [| | | | | |d|]; try done. cbn. by destruct (d !! key). Qed.

Lemma safe_res_len v : safe_res (Py.len v).
Proof. by destruct v. Qed.

Lemma safe_res_getitem0 v : safe_res (Py.getitem0 v).
Proof. destruct v as [| | | |[|]|[|]| |]; done. Qed.

Lemma safe_res_get v key dflt : safe_res (Py.get v key dflt).
Proof. destruct v as [| | | | | |d|]; try done. cbn. by destruct (d !! key). Qed.

Lemma get_dict d key dflt : Py.get (VDict d) key dflt = Ok (default dflt (d !! key)).
Proof. cbn. by destruct (d !! key). Qed.

Create HintDb py.
#[local] Hint Resolve safe_res_contains safe_res_getitem safe_res_len
  safe_res_getitem0 safe_res_get : py.

(** ** Frames of the writes *)

#[local] Instance only_meta_changed_preorder : PreOrder only_meta_changed.
Proof.
  split.
  - intros w. by split.
  - intros w1 w2 w3 H12 H23. split; try (destruct H12, H23; congruence).
    + intros k Hk. by rewrite (omc_latest _ _ H23), (omc_latest _ _ H12).
    + etrans; [apply (omc_dom _ _ H12)|apply (omc_dom _ _ H23)].
Qed.

#[local] Instance same_telemetry_preorder : PreOrder same_telemetry.
Proof.
  split.
  - by intros w.
  - intros w1 w2 w3 (?&?&?) (?&?&?). repeat split; congruence.
Qed.

Lemma setitem_latest_data_meta key v :
  key ∈ meta_keys → preserves only_meta_changed (setitem_latest_data key v).
Proof.
  intros Hkey. apply preserves_write. intros w. split; cbn; try done.
  - intros k Hk. apply lookup_insert_ne. intros ->. done.
  - rewrite dom_insert_L. apply union_subseteq_r.
Qed.

(** ** The blocks of [on_message] *)

Section Blocks.
Variable json_loads : bytes → option pyval.
Variable datetime_now : nat → Z.

Ltac frame_step :=
  first
    [ apply preserves_bind; [typeclasses eauto| |intros ?]
    | apply preserves_lift; typeclasses eauto
    | apply preserves_ret; typeclasses eauto
    | apply setitem_latest_data_meta; by vm_compute
    | match goal with |- preserves _ (if ?b then _ else _) => destruct b end ].

Ltac safe_step :=
  first
    [ apply safe_bind; [|intros ?]
    | apply safe_lift; auto with py
    | apply safe_ret
    | apply safe_write
    | match goal with |- safe (if ?b then _ else _) => destruct b end ].

Lemma extract_device_info_frame payload :
  preserves only_meta_changed (extract_device_info payload).
Proof. unfold extract_device_info. repeat frame_step. Qed.

Lemma extract_signal_info_frame payload :
  preserves only_meta_changed (extract_signal_info payload).
Proof. unfold extract_signal_info. repeat frame_step. Qed.

Lemma extract_device_info_safe payload : safe (extract_device_info payload).
Proof. unfold extract_device_info, setitem_latest_data. repeat safe_step. Qed.

Lemma extract_signal_info_safe payload : safe (extract_signal_info payload).
Proof. unfold extract_signal_info, setitem_latest_data. repeat safe_step. Qed.

Lemma now_safe : safe (now datetime_now).
Proof. by intros w. Qed.

Lemma extract_object_data_safe payload :
  safe (extract_object_data datetime_now payload).
Proof.
  unfold extract_object_data, update_latest_data, history_append,
    assign_data_received.
  repeat first [safe_step | apply now_safe].
Qed.

Lemma bind_now {B : Type} (k : pyval → M B) w :
  bind (now datetime_now) k w = k (VDatetime (datetime_now (ticks w))) (tick w).
Proof. unfold bind. cbn. by destruct (k _ _). Qed.

(** The object block on a dict whose [object] is a dict: three writes. *)
Lemma extract_object_data_stored d obj w :
  d !! "object" = Some (VDict obj) →
  extract_object_data datetime_now (VDict d) w =
  {| res := Ok tt; final := store3 datetime_now obj w;
     observed := [store1 datetime_now obj w; store2 datetime_now obj w;
                  store3 datetime_now obj w] |}.
Proof.
  intros Hobj. unfold extract_object_data.
  cbn [Py.contains Py.getitem]. rewrite Hobj.
  rewrite bool_decide_true by eauto.
  rewrite !bind_lift_ok.
  repeat (rewrite get_dict, bind_lift_ok).
  rewrite bind_now. cbv beta.
  unfold update_latest_data, history_append, assign_data_received.
  rewrite (bind_write _ _ (tick w)), bind_now. cbv beta.
  repeat (rewrite get_dict, bind_lift_ok).
  reflexivity.
Qed.

(** On every other payload it writes nothing. *)
Lemma extract_object_data_quiet payload :
  not_storable payload → quiet (extract_object_data datetime_now payload).
Proof.
  intros Hp w. unfold extract_object_data.
  destruct payload as [| | | |s|l|d|]; cbn [Py.contains]; try done.
  - rewrite bind_lift_ok. by destruct (Py.str_contains _ _).
  - rewrite bind_lift_ok. by destruct (existsb _ _).
  - cbn in Hp. rewrite bind_lift_ok.
    destruct (d !! "object") as [v|] eqn:Hd.
    + rewrite bool_decide_true by eauto. cbn [Py.getitem].
      rewrite Hd, bind_lift_ok. by destruct v.
    + rewrite bool_decide_false; [done|]. by intros [].
Qed.

(** The device block never raises on a dict. *)
Lemma extract_device_info_dict d w :
  res (extract_device_info (VDict d) w) = Ok tt.
Proof.
  unfold extract_device_info. cbn [Py.contains]. rewrite bind_lift_ok.
  destruct (d !! "devEUI") as [v|] eqn:Hd.
  - rewrite bool_decide_true by eauto. cbn [Py.getitem].
    by rewrite Hd, bind_lift_ok.
  - rewrite bool_decide_false; [done|]. by intros [].
Qed.

(** The signal block raises on a dict exactly when its [rxInfo] is not
    of an accepted shape. *)
Lemma extract_signal_info_dict d w :
  match res (extract_signal_info (VDict d) w) with
  | Ok _ => rxInfo_accepted d = true
  | Raise _ => rxInfo_accepted d = false
  end.
Proof.
  unfold extract_signal_info, rxInfo_accepted. cbn [Py.contains].
  mstep.
  destruct (d !! "rxInfo") as [v|] eqn:Hd.
  2:{ rewrite bool_decide_false; [|by intros []]. by mstep. }
  rewrite bool_decide_true by eauto. cbn [Py.getitem]. rewrite Hd.
  repeat mstep.
  destruct v as [| | | |[|c s]|[|x l]|m|]; cbn [Py.len]; repeat mstep; try done.
  - replace (0 <? Z.of_nat (List.length (x :: l))) with true by done.
    repeat mstep. cbn [Py.getitem0]. repeat mstep.
    destruct x as [| | | | | |o|]; try (cbn [Py.get]; by mstep).
    rewrite !get_dict. repeat mstep. unfold setitem_latest_data.
    rewrite bind_write. cbn [res]. repeat mstep. rewrite bind_write. cbn [res].
    repeat mstep. rewrite get_dict. by mstep.
  - destruct (size m) as [|n] eqn:Hm; [done|].
    replace (0 <? Z.of_nat (S n)) with true by done.
    repeat mstep. cbn [Py.getitem0]. mstep.
    by rewrite bool_decide_false.
Qed.

(** What the [try] of [on_message] does, by the decoded payload. *)
Lemma on_message_try_cases raw w :
  let o := on_message_try json_loads datetime_now raw w in
  safe_res (res o) ∧
  match stored_object (json_loads raw) with
  | Some obj =>
      ∃ wm obs,
        only_meta_changed w wm ∧ Forall (only_meta_changed w) obs ∧
        res o = Ok tt ∧
        final o = store3 datetime_now obj wm ∧
        observed o = obs ++ [store1 datetime_now obj wm; store2 datetime_now obj wm;
                             store3 datetime_now obj wm]
  | None =>
      only_meta_changed w (final o) ∧ Forall (only_meta_changed w) (observed o)
  end.
Proof.
  cbv zeta. split.
  { unfold on_message_try, loads. apply safe_bind.
    - intros w'. by destruct (json_loads raw).
    - intros p. apply safe_bind; [apply extract_device_info_safe|intros _].
      apply safe_bind; [apply extract_signal_info_safe|intros _].
      apply extract_object_data_safe. }
  unfold on_message_try, loads.
  destruct (json_loads raw) as [p|]; [|by split].
  rewrite bind_ret, bind_unfold.
  destruct (extract_device_info_frame p w) as [Hf1 Ho1].
  pose proof (extract_device_info_dict) as Hdict1.
  set (o1 := extract_device_info p w) in *.
  destruct (res o1) as [[]|e1] eqn:Hr1.
  2:{ destruct p as [| | | | | |d|]; try by split.
      subst o1. by rewrite Hdict1 in Hr1. }
  rewrite bind_unfold.
  destruct (extract_signal_info_frame p (final o1)) as [Hf2 Ho2].
  pose proof (extract_signal_info_dict) as Hdict2.
  set (o2 := extract_signal_info p (final o1)) in *.
  assert (Hwm : only_meta_changed w (final o2)) by by trans (final o1).
  assert (Hobs : Forall (only_meta_changed w) (observed o1 ++ observed o2)).
  { apply Forall_app. split; [done|]. eapply Forall_impl; [exact Ho2|].
    intros w' Hw'. by trans (final o1). }
  destruct (res o2) as [[]|e2] eqn:Hr2.
  2:{ cbn [final observed].
      destruct p as [| | | | | |d|]; try by split.
      specialize (Hdict2 d (final o1)). fold o2 in Hdict2. rewrite Hr2 in Hdict2.
      cbn [stored_object]. rewrite Hdict2. by split. }
  cbn [final observed res].
  destruct (stored_object (Some p)) as [obj|] eqn:Hst.
  - destruct p as [| | | | | |d|]; try done. cbn [stored_object] in Hst.
    destruct (rxInfo_accepted d); [|done].
    destruct (d !! "object") as [[| | | | | |obj'|]|] eqn:Hobj; try done.
    injection Hst as ->.
    rewrite (extract_object_data_stored d obj _ Hobj). cbn [res final observed].
    exists (final o2), (observed o1 ++ observed o2).
    by rewrite app_assoc.
  - assert (Hns : not_storable p).
    { destruct p as [| | | | | |d|]; try done. cbn [stored_object] in Hst.
      specialize (Hdict2 d (final o1)). fold o2 in Hdict2. rewrite Hr2 in Hdict2.
      rewrite Hdict2 in Hst. cbn.
      by destruct (d !! "object") as [[| | | | | |obj'|]|]. }
    destruct (extract_object_data_quiet p Hns (final o2)) as [-> ->].
    by rewrite app_nil_r.
Qed.

(** The same for [on_message], which in addition never raises. *)
Lemma on_message_cases raw w :
  let o := on_message json_loads datetime_now raw w in
  res o = Ok tt ∧
  match stored_object (json_loads raw) with
  | Some obj =>
      ∃ wm obs,
        only_meta_changed w wm ∧ Forall (only_meta_changed w) obs ∧
        final o = store3 datetime_now obj wm ∧
        observed o = obs ++ [store1 datetime_now obj wm; store2 datetime_now obj wm;
                             store3 datetime_now obj wm]
  | None =>
      only_meta_changed w (final o) ∧ Forall (only_meta_changed w) (observed o)
  end.
Proof.
  cbv zeta. unfold on_message. rewrite try_except_unfold.
  destruct (on_message_try_cases raw w) as [Hsafe Hcases]. cbv zeta in *.
  set (o := on_message_try json_loads datetime_now raw w) in *.
  destruct (res o) as [[]|e] eqn:Hres.
  - rewrite Hres. split; [done|].
    destruct (stored_object (json_loads raw)); [|done].
    destruct Hcases as (wm & obs & ? & ? & ? & ? & ?). by exists wm, obs.
  - cbn in Hsafe. rewrite Hsafe. cbn [ret res final observed].
    split; [done|]. rewrite app_nil_r.
    destruct (stored_object (json_loads raw)); [|done].
    by destruct Hcases as (wm & obs & ? & ? & ? & ? & ?).
Qed.

End Blocks.

(** ** The store after a stored sample *)



Lemma history_entry_dom obj t : dom (history_entry obj t) = history_keys.
Proof.
  unfold history_entry, history_keys.
  rewrite !dom_insert_L, dom_empty_L. set_solver.
Qed.

Lemma numeric_fields_not_meta k : k ∈ numeric_fields → k ∉ meta_keys.
Proof.
  unfold numeric_fields, meta_keys. intros Hk.
  repeat (apply elem_of_cons in Hk as [->|Hk]; [by vm_compute|]).
  by apply elem_of_nil in Hk.
Qed.

Section Stored.
Variable datetime_now : nat → Z.
Implicit Types (obj : pydict) (w : world).



Lemma store3_history obj w :
  history (session (store3 datetime_now obj w))
  = deque_append HISTORY_MAXLEN (history (session w))
      (history_entry obj (datetime_now (S (ticks w)))).
Proof. reflexivity. Qed.

Lemma store3_received obj w :
  data_received (session (store3 datetime_now obj w)) = true.
Proof. reflexivity. Qed.

End Stored.

(** ** The message callback *)

Section OnMessage.
Variable json_loads : bytes → option pyval.
Variable datetime_now : nat → Z.

(** C8: whatever the payload is (bytes that do not decode, JSON of an
    unexpected shape, anything) and whatever the store holds, the message
    callback returns normally: no exception leaves it towards the
    transport thread or the read path. *)
Theorem on_message_never_raises (raw : bytes) (w : world) :
  res (on_message json_loads datetime_now raw w) = Ok tt.
Proof. apply on_message_cases. Qed.

(** C3: when the payload does not decode, the callback discards the
    message: the world after it is the world before it (no field of the
    session state is written, the clock is not even read), and no reader
    sees any intermediate store. *)
Theorem decode_failure_leaves_store (raw : bytes) (w : world) :
  json_loads raw = None →
  on_message json_loads datetime_now raw w
  = {| res := Ok tt; final := w; observed := [] |}.
Proof.
  intros Hraw. unfold on_message, on_message_try, loads.
  rewrite try_except_unfold. by rewrite Hraw.
Qed.



End OnMessage.

(** *** The callback on the example payloads *)

Lemma decode_failure_leaves_store_witness :
  Demo.json_loads [] = None ∧
  on_message Demo.json_loads Demo.datetime_now [] Demo.world0
  = {| res := Ok tt; final := Demo.world0; observed := [] |}.
Proof.
  split; [reflexivity|].
  apply (decode_failure_leaves_store Demo.json_loads Demo.datetime_now []).
  reflexivity.
Defined.




(** Scenario B of the specification on the first example payload: the
    voltage is stored, the signal strength keeps its initial [0] and the
    device id its initial ["--"]. *)
Example scenario_B :
  let w := final (on_message Demo.json_loads Demo.datetime_now [Byte.x31]
                    Demo.world0) in
  latest_data (session w) !! "voltage" = Some (VFloat 221.4%float) ∧
  latest_data (session w) !! "frequency" = Some (VInt 0) ∧
  latest_data (session w) !! "rssi" = Some (VInt 0) ∧
  latest_data (session w) !! "devEUI" = Some (VStr "--") ∧
  data_received (session w) = true.
Proof. vm_compute. repeat split; reflexivity. Qed.

(** ** The history buffer *)



(** Scenario C of the specification: of 105 items numbered from 1, the
    buffer of the program keeps 100 and the oldest is number 6. *)
Example scenario_C :
  head (fold_left (deque_append HISTORY_MAXLEN) (seq 1 105) []) = Some 6%nat ∧
  last (fold_left (deque_append HISTORY_MAXLEN) (seq 1 105) []) = Some 105%nat.
Proof. vm_compute. split; reflexivity. Qed.

(** ** Frames of the connection handlers *)

#[local] Instance readings_kept_preorder : PreOrder readings_kept.
Proof.
  split.
  - intros w. by split.
  - intros w1 w2 w3 H12 H23. split; try (destruct H12, H23; congruence).
    + intros k Hk. by rewrite (rk_latest _ _ H23), (rk_latest _ _ H12).
    + etrans; [apply (rk_dom _ _ H12)|apply (rk_dom _ _ H23)].
Qed.

Lemma only_meta_changed_kept w w' : only_meta_changed w w' → readings_kept w w'.
Proof. intros []. by split. Qed.

Lemma same_telemetry_kept w w' : same_telemetry w w' → readings_kept w w'.
Proof. intros (Hl & Hh & Hr). split; try done; by rewrite Hl. Qed.

Section Connection.
Variable json_loads : bytes → option pyval.
Variable datetime_now : nat → Z.
Variable MQTT_BROKER : string.
Variable MQTT_PORT : Z.
Variable MQTT_USERNAME : string.
Variable MQTT_PASSWORD : string.

Lemma preserves_try_except (R : relation world) `{!PreOrder R} {A : Type}
    (body : M A) (handler : exn → M A) :
  preserves R body → (∀ e, preserves R (handler e)) →
  preserves R (try_except_Exception body handler).
Proof.
  intros Hb Hh w. rewrite try_except_unfold. destruct (Hb w) as [Hf Ho].
  destruct (res (body w)) as [a|e]; [done|].
  destruct (is_Exception e); [|done]. cbn [final observed].
  destruct (Hh e (final (body w))) as [Hf' Ho']. split.
  - by trans (final (body w)).
  - apply Forall_app. split; [done|].
    eapply Forall_impl; [exact Ho'|]. intros w' Hw'. by trans (final (body w)).
Qed.

Lemma preserves_session_kept {A : Type} (m : M A) :
  (∀ w, session (final (m w)) = session w ∧
        Forall (fun w' => session w' = session w) (observed (m w))) →
  preserves same_telemetry m.
Proof.
  intros Hm w. destruct (Hm w) as [Hf Ho]. split.
  - unfold same_telemetry. by rewrite Hf.
  - eapply Forall_impl; [exact Ho|]. intros w' Hw'. unfold same_telemetry.
    by rewrite Hw'.
Qed.

Lemma on_client_frame c f : preserves same_telemetry (on_client c f).
Proof. apply preserves_session_kept. intros w. split; [done|]. by repeat constructor. Qed.

Lemma alloc_client_frame c : preserves same_telemetry (alloc_client c).
Proof. apply preserves_session_kept. intros w. by split. Qed.

Lemma client_connect_frame c host port keepalive conn :
  preserves same_telemetry (client_connect c host port keepalive conn).
Proof. apply preserves_session_kept. intros w. by split. Qed.

Lemma st_error_frame e : preserves same_telemetry (st_error e).
Proof. apply preserves_session_kept. intros w. by split. Qed.

Lemma read_frame {A : Type} (f : world → A) : preserves same_telemetry (read f).
Proof. apply preserves_session_kept. intros w. by split. Qed.

Lemma assign_mqtt_connected_frame b :
  preserves same_telemetry (assign_mqtt_connected b).
Proof. apply preserves_write. by intros w. Qed.

Lemma assign_mqtt_client_frame c :
  preserves same_telemetry (assign_mqtt_client c).
Proof. apply preserves_write. by intros w. Qed.

Ltac telemetry_step :=
  first
    [ apply preserves_bind; [typeclasses eauto| |intros ?]
    | apply preserves_try_except; [typeclasses eauto| |intros ?]
    | apply preserves_ret; typeclasses eauto
    | apply on_client_frame
    | apply alloc_client_frame
    | apply client_connect_frame
    | apply st_error_frame
    | apply read_frame
    | apply assign_mqtt_connected_frame
    | apply assign_mqtt_client_frame
    | match goal with |- preserves _ (if ?b then _ else _) => destruct b end
    | match goal with |- preserves _ (match ?c with _ => _ end) => destruct c end ].

Lemma on_connect_frame client rc : preserves same_telemetry (on_connect client rc).
Proof. unfold on_connect. repeat telemetry_step. Qed.

Lemma on_disconnect_frame client rc :
  preserves same_telemetry (on_disconnect client rc).
Proof. unfold on_disconnect. repeat telemetry_step. Qed.

Lemma init_mqtt_frame conn :
  preserves same_telemetry
    (init_mqtt MQTT_BROKER MQTT_PORT MQTT_USERNAME MQTT_PASSWORD conn).
Proof. unfold init_mqtt. repeat telemetry_step. Qed.

Lemma reconnect_mqtt_frame conn :
  preserves same_telemetry
    (reconnect_mqtt MQTT_BROKER MQTT_PORT MQTT_USERNAME MQTT_PASSWORD conn).
Proof.
  unfold reconnect_mqtt. repeat telemetry_step. all: apply init_mqtt_frame.
Qed.

Abbreviation handle' :=
  (handle json_loads datetime_now MQTT_BROKER MQTT_PORT MQTT_USERNAME MQTT_PASSWORD).
Abbreviation run' :=
  (run json_loads datetime_now MQTT_BROKER MQTT_PORT MQTT_USERNAME MQTT_PASSWORD).
Abbreviation visible' :=
  (visible json_loads datetime_now MQTT_BROKER MQTT_PORT MQTT_USERNAME MQTT_PASSWORD).

(** What an event does to the telemetry: a message with a stored object
    makes the three writes, after writes that keep the readings; every
    other event keeps the readings throughout. *)
Lemma handle_cases ev w :
  match event_object json_loads ev with
  | Some obj =>
      ∃ wm obs,
        readings_kept w wm ∧ ticks wm = ticks w ∧ Forall (readings_kept w) obs ∧
        final (handle' ev w) = store3 datetime_now obj wm ∧
        observed (handle' ev w)
          = obs ++ [store1 datetime_now obj wm; store2 datetime_now obj wm;
                    store3 datetime_now obj wm]
  | None =>
      readings_kept w (final (handle' ev w)) ∧
      Forall (readings_kept w) (observed (handle' ev w))
  end.
Proof.
  assert (Hkept : ∀ (m : M unit) w0, preserves same_telemetry m →
            readings_kept w0 (final (m w0)) ∧
            Forall (readings_kept w0) (observed (m w0))).
  { intros m w0 Hm. destruct (Hm w0) as [Hf Ho]. split.
    - by apply same_telemetry_kept.
    - eapply Forall_impl; [exact Ho|]. apply same_telemetry_kept. }
  destruct ev as [raw|client rc|client rc|conn|conn]; cbn [event_object handle].
  - destruct (on_message_cases json_loads datetime_now raw w) as [_ H].
    cbv zeta in H. destruct (stored_object (json_loads raw)) as [obj|].
    + destruct H as (wm & obs & Hwm & Hobs & Hf & Ho).
      exists wm, obs. split; [by apply only_meta_changed_kept|].
      split; [apply Hwm|]. split; [|done].
      eapply Forall_impl; [exact Hobs|]. apply only_meta_changed_kept.
    + destruct H as [Hf Ho]. split.
      * by apply only_meta_changed_kept.
      * eapply Forall_impl; [exact Ho|]. apply only_meta_changed_kept.
  - apply Hkept, on_connect_frame.
  - apply Hkept, on_disconnect_frame.
  - apply Hkept. apply preserves_bind; [typeclasses eauto|apply init_mqtt_frame|].
    intros ?. apply preserves_ret. typeclasses eauto.
  - apply Hkept. apply preserves_bind; [typeclasses eauto|apply reconnect_mqtt_frame|].
    intros ?. apply preserves_ret. typeclasses eauto.
Qed.

End Connection.

(** ** Invariants of the store under any sequence of events *)

Section Invariants.
Variable json_loads : bytes → option pyval.
Variable datetime_now : nat → Z.
Variable MQTT_BROKER : string.
Variable MQTT_PORT : Z.
Variable MQTT_USERNAME : string.
Variable MQTT_PASSWORD : string.

Abbreviation handle_ :=
  (handle json_loads datetime_now MQTT_BROKER MQTT_PORT MQTT_USERNAME MQTT_PASSWORD).
Abbreviation run_ :=
  (run json_loads datetime_now MQTT_BROKER MQTT_PORT MQTT_USERNAME MQTT_PASSWORD).
Abbreviation visible_ :=
  (visible json_loads datetime_now MQTT_BROKER MQTT_PORT MQTT_USERNAME MQTT_PASSWORD).

Section Always.
(** A property of the session that survives every write. *)
Variable I : session_state → Prop.
Hypothesis I_kept : ∀ w w', readings_kept w w' → I (session w) → I (session w').
Hypothesis I_store1 : ∀ obj w, I (session w) → I (session (store1 datetime_now obj w)).
Hypothesis I_store2 : ∀ obj w, I (session w) → I (session (store2 datetime_now obj w)).
Hypothesis I_store3 : ∀ obj w, I (session w) → I (session (store3 datetime_now obj w)).

Lemma always_handle ev w :
  I (session w) →
  I (session (final (handle_ ev w))) ∧
  Forall (fun w' => I (session w')) (observed (handle_ ev w)).
Proof using All.
  intros Hw.
  pose proof (handle_cases json_loads datetime_now MQTT_BROKER MQTT_PORT
                MQTT_USERNAME MQTT_PASSWORD ev w) as H.
  destruct (event_object json_loads ev) as [obj|].
  - destruct H as (wm & obs & Hwm & _ & Hobs & -> & ->).
    assert (I (session wm)) by eauto.
    split; [eauto|]. apply Forall_app. split.
    + eapply Forall_impl; [exact Hobs|]. cbv beta. eauto.
    + repeat constructor; eauto.
  - destruct H as [Hf Ho]. split; [eauto|].
    eapply Forall_impl; [exact Ho|]. cbv beta. eauto.
Qed.

Lemma always_run evs : ∀ w,
  I (session w) →
  I (session (run_ evs w)) ∧ Forall (fun w' => I (session w')) (visible_ evs w).
Proof using All.
  induction evs as [|ev evs IH]; intros w Hw; cbn [run visible]; [by split|].
  destruct (always_handle ev w Hw) as [Hf Ho].
  destruct (IH _ Hf) as [Hr Hv]. split; [done|]. by apply Forall_app.
Qed.

End Always.

Section Quiescent.
(** A property of the session that holds again after each event. *)
Variable Q : session_state → Prop.
Hypothesis Q_kept : ∀ w w', readings_kept w w' → Q (session w) → Q (session w').
Hypothesis Q_store3 : ∀ obj w, Q (session (store3 datetime_now obj w)).


End Quiescent.

(** The instances. *)





Lemma history_projected_kept w w' :
  readings_kept w w' →
  history_entries_projected (session w) → history_entries_projected (session w').
Proof.
  intros Hk Hw. unfold history_entries_projected. by rewrite (rk_history _ _ Hk).
Qed.

Lemma history_projected_append h entry :
  Forall (fun e : pydict => dom e = history_keys) h →
  dom entry = history_keys →
  Forall (fun e : pydict => dom e = history_keys)
    (deque_append HISTORY_MAXLEN h entry).
Proof.
  intros Hh He. apply Forall_forall. intros e Hin.
  apply deque_append_elem in Hin as [Hin| ->]; [|done].
  by eapply Forall_forall in Hh.
Qed.



Lemma initial_latest_data_dom t : dom (initial_latest_data t) = sample_keys.
Proof.
  unfold initial_latest_data, sample_keys.
  rewrite !dom_insert_L, dom_empty_L. set_solver.
Qed.


(** C9: every entry of the history, after any sequence of events and at
    every moment a reader can look, has exactly the four keys timestamp,
    power, voltage and current; none of the other nine keys of a sample
    is in it. *)
Theorem history_holds_projections (evs : list event) :
  Forall
    (fun w =>
       Forall (fun entry : pydict =>
                 dom entry = history_keys ∧
                 ∀ k, k ∈ sample_keys ∖ history_keys → entry !! k = None)
         (read_history w))
    (run_ evs (initial_world datetime_now)
       :: initial_world datetime_now
       :: visible_ evs (initial_world datetime_now)).
Proof.
  assert (Hweaken : ∀ w, history_entries_projected (session w) →
            Forall (fun entry : pydict =>
                      dom entry = history_keys ∧
                      ∀ k, k ∈ sample_keys ∖ history_keys → entry !! k = None)
              (read_history w)).
  { intros w Hw. eapply Forall_impl; [exact Hw|]. intros entry He.
    split; [done|]. intros k Hk. apply not_elem_of_dom. rewrite He.
    by apply elem_of_difference in Hk as [_ ?]. }
  assert (Hinit : history_entries_projected (session (initial_world datetime_now)))
    by constructor.
  destruct (always_run history_entries_projected) with (evs := evs)
    (w := initial_world datetime_now) as [Hr Hv]; try done.
  - apply history_projected_kept.
  - intros obj w Hw. unfold history_entries_projected. cbn [store2 session
      with_session set_history history tick].
    apply history_projected_append; [exact Hw|apply history_entry_dom].
  - intros obj w Hw. unfold history_entries_projected.
    change (history (session (store3 datetime_now obj w)))
      with (deque_append HISTORY_MAXLEN (history (session w))
              (history_entry obj (datetime_now (S (ticks w))))).
    apply history_projected_append; [exact Hw|apply history_entry_dom].
  - repeat (constructor; [by apply Hweaken|]).
    eapply Forall_impl; [exact Hv|]. apply Hweaken.
Qed.

End Invariants.


(** ** The store at process start *)

Section Start.
Variable json_loads : bytes → option pyval.
Variable datetime_now : nat → Z.
Variable MQTT_BROKER : string.
Variable MQTT_PORT : Z.
Variable MQTT_USERNAME : string.
Variable MQTT_PASSWORD : string.

Abbreviation run0 :=
  (run json_loads datetime_now MQTT_BROKER MQTT_PORT MQTT_USERNAME MQTT_PASSWORD).

Lemma data_received_run evs : ∀ w,
  data_received (session (run0 evs w)) = true ↔
  data_received (session w) = true ∨
  Exists (fun ev => is_Some (event_object json_loads ev)) evs.
Proof.
  induction evs as [|ev evs IH]; intros w; cbn [run].
  - rewrite Exists_nil. tauto.
  - rewrite IH, Exists_cons.
    pose proof (handle_cases json_loads datetime_now MQTT_BROKER MQTT_PORT
                  MQTT_USERNAME MQTT_PASSWORD ev w) as H.
    destruct (event_object json_loads ev) as [obj|].
    + destruct H as (wm & obs & _ & _ & _ & -> & _). rewrite store3_received.
      split; [intros _; right; left; eauto|by left].
    + destruct H as [Hf _]. rewrite (rk_received _ _ Hf).
      split; [intros [?|?]; [by left|by right; right]|].
      intros [?|[[? [=]]|?]]; [by left|by right].
Qed.

(** C6, as amended: at process start the connection flag and the
    data-received flag are [False], the history is empty, there is no
    client, and [latest_data] is not [None] but a placeholder sample: the
    eight readings, [rssi] and [snr] are [0], [devEUI] and [gateway] are
    ["--"] and the timestamp is the time of creation.  [data_received]
    becomes [True] with the first message whose object is stored, and not
    before. *)
Theorem initial_store :
  mqtt_connected (session (initial_world datetime_now)) = false ∧
  data_received (session (initial_world datetime_now)) = false ∧
  history (session (initial_world datetime_now)) = [] ∧
  mqtt_client (session (initial_world datetime_now)) = None ∧
  read_latest_data (initial_world datetime_now)
    = VDict (initial_latest_data (datetime_now 0)) ∧
  dom (initial_latest_data (datetime_now 0)) = sample_keys ∧
  (∀ k, k ∈ numeric_fields ++ ["rssi"; "snr"] →
     initial_latest_data (datetime_now 0) !! k = Some (VInt 0)) ∧
  initial_latest_data (datetime_now 0) !! "devEUI" = Some (VStr "--") ∧
  initial_latest_data (datetime_now 0) !! "gateway" = Some (VStr "--") ∧
  initial_latest_data (datetime_now 0) !! "timestamp"
    = Some (VDatetime (datetime_now 0)) ∧
  ∀ evs,
    data_received (session (run0 evs (initial_world datetime_now))) = true ↔
    Exists (fun ev => is_Some (event_object json_loads ev)) evs.
Proof.
  do 5 (split; [reflexivity|]).
  split; [apply initial_latest_data_dom|].
  split.
  { intros k Hk. cbn [app numeric_fields] in Hk.
    repeat (apply elem_of_cons in Hk as [->|Hk]; [reflexivity|]).
    by apply elem_of_nil in Hk. }
  do 3 (split; [reflexivity|]).
  intros evs. rewrite data_received_run. cbn. split; [|by right].
  by intros [?|?].
Qed.

End Start.

(** C6 as stated fails: at process start [latest_data] is not [None]; it
    is a dict that already has a voltage of [0] and the device id ["--"],
    and the header of the page reads it before any message has come. *)
Lemma latest_is_not_None_at_start :
  read_latest_data (initial_world Demo.datetime_now) ≠ VNone ∧
  latest_data (session (initial_world Demo.datetime_now)) !! "voltage"
    = Some (VInt 0) ∧
  latest_data (session (initial_world Demo.datetime_now)) !! "devEUI"
    = Some (VStr "--").
Proof. split; [discriminate|]. split; reflexivity. Qed.

(** ** Connecting *)

Lemma bind_read {A B : Type} (f : world → A) (k : A → M B) w :
  bind (read f) k w = k (f w) w.
Proof. unfold bind. cbn. by destruct (k _ _). Qed.

Lemma bind_alloc_client {B : Type} (c : Client) (k : nat → M B) w :
  bind (alloc_client c) k w
  = k (List.length (clients w)) (with_clients (fun h => h ++ [c]) w).
Proof. unfold bind. cbn. by destruct (k _ _). Qed.

Lemma alter_last (f : Client → Client) (h : list Client) (c : Client) :
  alter f (List.length h) (h ++ [c]) = h ++ [f c].
Proof.
  rewrite <- (Nat.add_0_r (List.length h)). by rewrite alter_app_r.
Qed.

Section Connect.
Variable MQTT_BROKER : string.
Variable MQTT_PORT : Z.
Variable MQTT_USERNAME : string.
Variable MQTT_PASSWORD : string.

Abbreviation init_mqtt_ :=
  (init_mqtt MQTT_BROKER MQTT_PORT MQTT_USERNAME MQTT_PASSWORD).

(** The call that [init_mqtt] issues. *)
Definition the_connect_call : connect_call :=
  {| cc_credentials := username_pw (configured_client MQTT_USERNAME MQTT_PASSWORD);
     cc_host := MQTT_BROKER; cc_port := MQTT_PORT; cc_keepalive := 60 |}.

(** An attempt, by what the network answers. *)
Lemma init_mqtt_attempt w conn :
  mqtt_client (session w) = None →
  let o := init_mqtt_ conn w in
  connects (final o) = connects w ++ [the_connect_call] ∧
  match conn with
  | None =>
      res o = Ok true ∧
      session (final o) = set_mqtt_client (Some (List.length (clients w))) (session w) ∧
      clients (final o)
        = clients w ++ [set_loop true (configured_client MQTT_USERNAME MQTT_PASSWORD)] ∧
      st_errors (final o) = st_errors w
  | Some e =>
      session (final o) = session w ∧
      clients (final o)
        = clients w ++ [configured_client MQTT_USERNAME MQTT_PASSWORD] ∧
      if is_Exception e
      then res o = Ok false ∧ st_errors (final o) = st_errors w ++ [e]
      else res o = Raise e ∧ st_errors (final o) = st_errors w
  end.
Proof.
  intros Hnone. cbv zeta. unfold init_mqtt, the_connect_call, configured_client.
  rewrite bind_read, Hnone, bind_alloc_client. unfold on_client.
  rewrite bind_write. cbn [res final observed].
  destruct (Py.truthy_str MQTT_USERNAME && Py.truthy_str MQTT_PASSWORD).
  - rewrite bind_write. cbn [res final observed].
    rewrite try_except_unfold. unfold client_connect, assign_mqtt_client.
    destruct conn as [e|]; cbn; rewrite !alter_last, ?list_lookup_middle by done;
      [destruct (is_Exception e)|]; cbn; rewrite ?alter_last; by destruct w.
  - rewrite bind_ret.
    rewrite try_except_unfold. unfold client_connect, assign_mqtt_client.
    destruct conn as [e|]; cbn; rewrite !alter_last, ?list_lookup_middle by done;
      [destruct (is_Exception e)|]; cbn; rewrite ?alter_last; by destruct w.
Qed.


(** C10: when [init_mqtt] makes an attempt, the call that reaches the
    network carries the user name and the password if and only if both
    are non-empty; when either is empty, and so when exactly one is
    given, the call carries no credentials. *)
Theorem credentials_iff_both_given (w : world) (conn : option exn) :
  mqtt_client (session w) = None →
  let w' := final (init_mqtt_ conn w) in
  ∃ call,
    connects w' = connects w ++ [call] ∧
    cc_host call = MQTT_BROKER ∧ cc_port call = MQTT_PORT ∧
    (cc_credentials call = Some (MQTT_USERNAME, MQTT_PASSWORD) ↔
     MQTT_USERNAME ≠ "" ∧ MQTT_PASSWORD ≠ "") ∧
    (MQTT_USERNAME = "" ∨ MQTT_PASSWORD = "" → cc_credentials call = None) ∧
    (clients w' !! List.length (clients w)) ≫= username_pw = cc_credentials call.
Proof.
  intros Hnone. cbv zeta.
  destruct (init_mqtt_attempt w conn Hnone) as [Hcalls Hrest].
  exists the_connect_call. split; [done|]. split; [done|]. split; [done|].
  assert (Hcreds : cc_credentials the_connect_call
            = if Py.truthy_str MQTT_USERNAME && Py.truthy_str MQTT_PASSWORD
              then Some (MQTT_USERNAME, MQTT_PASSWORD) else None).
  { unfold the_connect_call, configured_client. cbn.
    by destruct (Py.truthy_str MQTT_USERNAME && Py.truthy_str MQTT_PASSWORD). }
  split; [|split].
  - rewrite Hcreds.
    destruct MQTT_USERNAME, MQTT_PASSWORD; cbn; split; try done;
      intros [? ?]; done.
  - rewrite Hcreds. intros [-> | ->]; [done|]. by rewrite andb_false_r.
  - unfold the_connect_call. cbn [cc_credentials].
    destruct conn as [e|].
    + destruct Hrest as (_ & -> & _). by rewrite list_lookup_middle.
    + destruct Hrest as (_ & _ & -> & _). rewrite list_lookup_middle by done.
      cbn. unfold configured_client.
      by destruct (Py.truthy_str MQTT_USERNAME && Py.truthy_str MQTT_PASSWORD).
Qed.

End Connect.



(** With a user name and no password the attempt is anonymous. *)
Lemma credentials_iff_both_given_witness :
  mqtt_client (session Demo.world0) = None ∧
  ∃ call,
    connects (final (Demo.init_mqtt None Demo.world0))
      = connects Demo.world0 ++ [call] ∧
    cc_credentials call = None.
Proof.
  split; [reflexivity|].
  destruct (credentials_iff_both_given Demo.MQTT_BROKER Demo.MQTT_PORT
              Demo.MQTT_USERNAME Demo.MQTT_PASSWORD Demo.world0 None eq_refl)
    as (call & Hcalls & _ & _ & _ & Hanon & _).
  exists call. split; [exact Hcalls|]. apply Hanon. by right.
Defined.

(** Scenario D of the specification: two attempts fail and the third is
    accepted.  The flag is [False] after each failure and [True] after
    the CONNACK, the readings never change, and each attempt reached the
    network. *)
Example scenario_D :
  let w1 := Demo.run [ScriptRun (Some OSError)] Demo.world0 in
  let w2 := Demo.run [ScriptRun (Some OSError)] w1 in
  let w3 := Demo.run [ScriptRun None; Connack 2 0] w2 in
  mqtt_connected (session w1) = false ∧
  mqtt_connected (session w2) = false ∧
  mqtt_connected (session w3) = true ∧
  mqtt_client (session w3) = Some 2%nat ∧
  latest_data (session w3) = latest_data (session Demo.world0) ∧
  List.length (connects w3) = 3%nat ∧
  (clients w3 !! 2%nat) ≫= (fun c => Some (subscriptions c)) = Some [MQTT_TOPIC].
Proof. vm_compute. repeat split; reflexivity. Qed.

(** ** The history of the program *)

Section HistoryOfMessages.
Variable json_loads : bytes → option pyval.
Variable datetime_now : nat → Z.
Variable MQTT_BROKER : string.
Variable MQTT_PORT : Z.
Variable MQTT_USERNAME : string.
Variable MQTT_PASSWORD : string.

Abbreviation run1 :=
  (run json_loads datetime_now MQTT_BROKER MQTT_PORT MQTT_USERNAME MQTT_PASSWORD).

Lemma entries_from_length t objs :
  List.length (entries_from datetime_now t objs) = List.length objs.
Proof. revert t. induction objs as [|obj objs IH]; intros t; cbn; [done|]. by rewrite IH. Qed.

Lemma history_of_messages raws : ∀ objs w,
  Forall2 (fun raw obj => stored_object (json_loads raw) = Some obj) raws objs →
  history (session (run1 (Message <$> raws) w))
  = fold_left (deque_append HISTORY_MAXLEN)
      (entries_from datetime_now (ticks w) objs) (history (session w)).
Proof.
  induction raws as [|raw raws IH]; intros objs w Hall.
  - by apply Forall2_nil_inv_l in Hall as ->.
  - apply Forall2_cons_inv_l in Hall as (obj & objs' & Hobj & Hall & ->).
    cbn [fmap list_fmap run handle entries_from fold_left].
    destruct (on_message_cases json_loads datetime_now raw w) as [_ H].
    cbv zeta in H. rewrite Hobj in H.
    destruct H as (wm & obs & Hwm & _ & -> & _).
    rewrite (IH objs' _ Hall), store3_history.
    change (ticks (store3 datetime_now obj wm)) with (S (S (ticks wm))).
    by rewrite (omc_history _ _ Hwm), (omc_ticks _ _ Hwm).
Qed.

(** The history after [HISTORY_MAXLEN + k] stored messages, from process
    start: the entries of the last [HISTORY_MAXLEN] of them, oldest
    first. *)
Theorem history_after_messages (k : nat) (raws : list bytes) (objs : list pydict) :
  Forall2 (fun raw obj => stored_object (json_loads raw) = Some obj) raws objs →
  List.length raws = (HISTORY_MAXLEN + k)%nat → (1 ≤ k)%nat →
  read_history (run1 (Message <$> raws) (initial_world datetime_now))
  = drop k (entries_from datetime_now 1 objs) ∧
  List.length (read_history (run1 (Message <$> raws) (initial_world datetime_now)))
  = HISTORY_MAXLEN.
Proof.
  intros Hall Hlen Hk. unfold read_history.
  rewrite (history_of_messages raws objs _ Hall).
  assert (Hn : List.length (entries_from datetime_now 1 objs)
               = (HISTORY_MAXLEN + k)%nat).
  { rewrite entries_from_length, <- Hlen. symmetry. by eapply Forall2_length. }
  cbn [initial_world initial_session session history ticks].
  rewrite deque_fold_drop by (cbn; lia). cbn [app]. rewrite Hn.
  replace (HISTORY_MAXLEN + k - HISTORY_MAXLEN)%nat with k by lia.
  split; [done|]. rewrite length_drop, Hn. lia.
Qed.

End HistoryOfMessages.

(** * Further properties of the callbacks *)

(** ** [on_message] in closed form *)

Section ClosedForm.
Variable json_loads : bytes → option pyval.
Variable datetime_now : nat → Z.

Lemma on_message_final raw w :
  final (on_message json_loads datetime_now raw w)
  = final (on_message_try json_loads datetime_now raw w).
Proof.
  unfold on_message. rewrite try_except_unfold.
  destruct (res (on_message_try json_loads datetime_now raw w)) as [[]|e]; [done|].
  by destruct (is_Exception e).
Qed.

Lemma extract_device_info_final d w :
  final (extract_device_info (VDict d) w) = device_written d w.
Proof.
  unfold extract_device_info, device_written. cbn [Py.contains]. mstep.
  destruct (d !! "devEUI") as [v|] eqn:Hd.
  - rewrite bool_decide_true by eauto. cbn [Py.getitem]. rewrite Hd. by mstep.
  - rewrite bool_decide_false; [done|]. by intros [].
Qed.

Lemma extract_signal_info_final d w :
  final (extract_signal_info (VDict d) w) = signal_written d w.
Proof.
  unfold extract_signal_info, signal_written. cbn [Py.contains].
  mstep.
  destruct (d !! "rxInfo") as [v|] eqn:Hd.
  2:{ rewrite bool_decide_false; [|by intros []]. by mstep. }
  rewrite bool_decide_true by eauto. cbn [Py.getitem]. rewrite Hd.
  repeat mstep.
  destruct v as [| | | |[|c s]|[|x l]|m|]; cbn [Py.len]; repeat mstep; try done.
  - replace (0 <? Z.of_nat (List.length (x :: l))) with true by done.
    repeat mstep. cbn [Py.getitem0]. repeat mstep.
    destruct x as [| | | | | |o|]; try (cbn [Py.get]; by mstep).
    rewrite !get_dict. repeat mstep. unfold setitem_latest_data.
    rewrite bind_write. cbn [final]. repeat mstep. rewrite bind_write. cbn [final].
    repeat mstep. rewrite get_dict. by mstep.
  - destruct (size m) as [|n] eqn:Hm; [done|].
    replace (0 <? Z.of_nat (S n)) with true by done.
    repeat mstep. cbn [Py.getitem0]. by mstep.
Qed.

Lemma on_message_dict_final (raw : bytes) (payload : pydict) (w : world) :
  json_loads raw = Some (VDict payload) →
  final (on_message json_loads datetime_now raw w)
  = object_written datetime_now payload
      (signal_written payload (device_written payload w)).
Proof.
  intros Hraw. rewrite on_message_final. unfold on_message_try, loads.
  rewrite Hraw, bind_ret, bind_unfold.
  rewrite (extract_device_info_dict payload w), extract_device_info_final.
  cbn [final]. rewrite bind_unfold.
  pose proof (extract_signal_info_dict payload (device_written payload w)) as Hrx.
  rewrite extract_signal_info_final.
  unfold object_written. cbn [stored_object].
  destruct (res (extract_signal_info (VDict payload) (device_written payload w)))
    as [[]|e]; rewrite Hrx; cbn [final]; [|done].
  destruct (payload !! "object") as [v|] eqn:Hobj.
  - destruct v as [| | | | | |obj|];
      try (by apply (extract_object_data_quiet datetime_now (VDict payload));
             cbn; rewrite Hobj).
    by rewrite (extract_object_data_stored datetime_now payload obj _ Hobj).
  - apply (extract_object_data_quiet datetime_now (VDict payload)).
    cbn. by rewrite Hobj.
Qed.


End ClosedForm.

(** ** Payloads that are not a dict, and the fields of the header *)

Ltac not_in_list :=
  let Hin := fresh "Hin" in
  intros Hin;
  repeat (apply elem_of_cons in Hin as [Hin|Hin]; [discriminate Hin|]);
  by apply elem_of_nil in Hin.

Section Payloads.
Variable json_loads : bytes → option pyval.
Variable datetime_now : nat → Z.

Definition is_dict (v : pyval) : bool :=
  match v with
  | VDict _ => true
  | _ => false
  end.

Lemma extract_device_info_not_dict p :
  is_dict p = false → quiet (extract_device_info p).
Proof.
  intros Hp w. unfold extract_device_info.
  destruct p as [| | | |s|l|d|]; try done; cbn [Py.contains]; mstep.
  - destruct (Py.str_contains _ _); [|done]. cbn [Py.getitem]. by mstep.
  - destruct (existsb _ _); [|done]. cbn [Py.getitem]. by mstep.
Qed.

Lemma extract_signal_info_not_dict p :
  is_dict p = false → quiet (extract_signal_info p).
Proof.
  intros Hp w. unfold extract_signal_info.
  destruct p as [| | | |s|l|d|]; try done; cbn [Py.contains]; mstep.
  - destruct (Py.str_contains _ _); repeat mstep; [|done].
    cbn [Py.getitem]. by mstep.
  - destruct (existsb _ _); repeat mstep; [|done].
    cbn [Py.getitem]. by mstep.
Qed.

Lemma on_message_quiet_not_dict (raw : bytes) (p : pyval) (w : world) :
  json_loads raw = Some p →
  is_dict p = false →
  on_message json_loads datetime_now raw w
  = {| res := Ok tt; final := w; observed := [] |}.
Proof.
  intros Hraw Hp.
  assert (Hq : quiet (on_message_try json_loads datetime_now raw)).
  { intros w'. unfold on_message_try, loads. rewrite Hraw, bind_ret.
    revert w'. change (quiet (extract_device_info p ;;;
                              extract_signal_info p ;;;
                              extract_object_data datetime_now p)).
    apply quiet_bind; [by apply extract_device_info_not_dict|intros _].
    apply quiet_bind; [by apply extract_signal_info_not_dict|intros _].
    apply extract_object_data_quiet. by destruct p. }
  destruct (on_message_cases json_loads datetime_now raw w) as [Hres _].
  cbv zeta in Hres.
  assert (Hf : final (on_message json_loads datetime_now raw w) = w)
    by (rewrite on_message_final; apply Hq).
  assert (Ho : observed (on_message json_loads datetime_now raw w) = []).
  { unfold on_message. rewrite try_except_unfold.
    destruct (Hq w) as [_ Hobs].
    destruct (res (on_message_try json_loads datetime_now raw w)) as [[]|e];
      [done|].
    destruct (is_Exception e); [|done]. cbn. by rewrite Hobs. }
  destruct (on_message json_loads datetime_now raw w) as [r f o].
  cbn in *. by subst.
Qed.

(** X2: a payload that decodes to anything but a dict (a list, a string,
    a number, a boolean, null) leaves the whole world as it was: the
    callback returns normally, writes nothing and shows no intermediate
    state, also when the string or the list happens to contain the words
    [devEUI], [rxInfo] or [object]. *)
Theorem on_message_not_a_dict (raw : bytes) (p : pyval) (w : world) :
  json_loads raw = Some p →
  is_dict p = false →
  on_message json_loads datetime_now raw w
  = {| res := Ok tt; final := w; observed := [] |}.
Proof. apply on_message_quiet_not_dict. Qed.

Lemma sample_update_other obj t k :
  k ∉ numeric_fields → k ≠ "timestamp" → sample_update obj t !! k = None.
Proof.
  unfold numeric_fields, sample_update. intros Hk Ht.
  repeat (apply not_elem_of_cons in Hk as [? Hk]).
  by simplify_map_eq.
Qed.

Lemma object_written_other payload w k :
  k ∉ numeric_fields → k ≠ "timestamp" →
  latest_data (session (object_written datetime_now payload w)) !! k
  = latest_data (session w) !! k.
Proof.
  intros Hk Ht. unfold object_written.
  destruct (stored_object _) as [obj|]; [|done]. cbn.
  rewrite lookup_union_r; [done|]. by apply sample_update_other.
Qed.




End Payloads.

(** ** The connection status *)

#[local] Instance connection_frame_preorder : PreOrder connection_frame.
Proof.
  split.
  - intros w. by split.
  - intros w1 w2 w3 [] []. split; congruence.
Qed.

Section Status.
Variable json_loads : bytes → option pyval.
Variable datetime_now : nat → Z.
Variable MQTT_BROKER : string.
Variable MQTT_PORT : Z.
Variable MQTT_USERNAME : string.
Variable MQTT_PASSWORD : string.

Abbreviation handle2 :=
  (handle json_loads datetime_now MQTT_BROKER MQTT_PORT MQTT_USERNAME MQTT_PASSWORD).
Abbreviation run2 :=
  (run json_loads datetime_now MQTT_BROKER MQTT_PORT MQTT_USERNAME MQTT_PASSWORD).
Abbreviation init_mqtt2 :=
  (init_mqtt MQTT_BROKER MQTT_PORT MQTT_USERNAME MQTT_PASSWORD).
Abbreviation reconnect_mqtt2 :=
  (reconnect_mqtt MQTT_BROKER MQTT_PORT MQTT_USERNAME MQTT_PASSWORD).

Ltac connection_step :=
  first
    [ apply preserves_bind; [typeclasses eauto| |intros ?]
    | apply preserves_try_except; [typeclasses eauto| |intros ?]
    | apply preserves_ret; typeclasses eauto
    | apply preserves_write; intros ?; by split
    | match goal with |- preserves _ (if ?b then _ else _) => destruct b end
    | match goal with |- preserves _ (match ?c with _ => _ end) => destruct c end
    | (intros ?; split; [by split|by repeat constructor]) ].

Lemma init_mqtt_connection_frame conn : preserves connection_frame (init_mqtt2 conn).
Proof.
  unfold init_mqtt, on_client, assign_mqtt_client. repeat connection_step.
Qed.

Lemma reconnect_mqtt_connection_frame conn :
  preserves connection_frame (reconnect_mqtt2 conn).
Proof.
  unfold reconnect_mqtt, on_client, assign_mqtt_client.
  repeat first [apply init_mqtt_connection_frame | connection_step].
Qed.



Lemma handle_ticks ev w :
  ticks (final (handle2 ev w))
  = match event_object json_loads ev with
    | Some _ => S (S (ticks w))
    | None => ticks w
    end.
Proof.
  destruct ev as [raw|client rc|client rc|conn|conn]; cbn [event_object handle].
  - destruct (on_message_cases json_loads datetime_now raw w) as [_ H].
    cbv zeta in H. destruct (stored_object (json_loads raw)) as [obj|].
    + destruct H as (wm & obs & Hwm & _ & -> & _). cbn. f_equal. f_equal.
      apply Hwm.
    + apply H.
  - unfold on_connect. by destruct (bool_decide (rc = 0)).
  - done.
  - rewrite bind_unfold.
    destruct (init_mqtt_connection_frame conn w) as [Hf _].
    destruct (res _); apply Hf.
  - rewrite bind_unfold.
    destruct (reconnect_mqtt_connection_frame conn w) as [Hf _].
    destruct (res _); apply Hf.
Qed.

(** ** The history under any sequence of events *)

Lemma history_of_events evs : ∀ w,
  history (session (run2 evs w))
  = fold_left (deque_append HISTORY_MAXLEN)
      (entries_from datetime_now (ticks w) (omap (event_object json_loads) evs))
      (history (session w)).
Proof.
  induction evs as [|ev evs IH]; intros w; [done|].
  cbn [run omap list_omap]. rewrite IH, handle_ticks.
  pose proof (handle_cases json_loads datetime_now MQTT_BROKER MQTT_PORT
                MQTT_USERNAME MQTT_PASSWORD ev w) as H.
  destruct (event_object json_loads ev) as [obj|].
  - destruct H as (wm & obs & Hwm & Ht & _ & -> & _).
    cbn [entries_from fold_left]. rewrite store3_history.
    by rewrite (rk_history _ _ Hwm), Ht.
  - destruct H as [Hf _]. by rewrite (rk_history _ _ Hf).
Qed.

Lemma deque_fold_length {A : Type} (N : nat) (xs d : list A) :
  (List.length d ≤ N)%nat →
  List.length (fold_left (deque_append N) xs d)
  = (N `min` (List.length d + List.length xs))%nat.
Proof.
  intros Hd. rewrite deque_fold_drop by done.
  rewrite length_drop, length_app. lia.
Qed.


(** X7: nothing is ever taken back.  From a store whose history is within
    its capacity, after any sequence of events the history is at least as
    long as before and still within capacity, and [data_received], once
    [True], is still [True]: no event clears the history or the flag, a
    reconnect included. *)
Theorem store_never_forgets (evs : list event) (w : world) :
  (List.length (history (session w)) ≤ HISTORY_MAXLEN)%nat →
  (List.length (history (session w))
     ≤ List.length (history (session (run2 evs w))))%nat ∧
  (List.length (history (session (run2 evs w))) ≤ HISTORY_MAXLEN)%nat ∧
  (data_received (session w) = true →
   data_received (session (run2 evs w)) = true).
Proof.
  intros Hw. rewrite history_of_events, deque_fold_length by done.
  split; [lia|]. split; [lia|].
  intros Hr. apply data_received_run. by left.
Qed.

Lemma entries_from_lookup objs : ∀ t i,
  entries_from datetime_now t objs !! i
  = (fun obj => history_entry obj (datetime_now (S (t + 2 * i)))) <$> objs !! i.
Proof.
  induction objs as [|obj objs IH]; intros t [|i]; cbn [entries_from]; try done.
  - cbn. do 3 f_equal. lia.
  - change ((history_entry obj (datetime_now (S t))
               :: entries_from datetime_now (S (S t)) objs) !! S i)
      with (entries_from datetime_now (S (S t)) objs !! i).
    change ((obj :: objs) !! S i) with (objs !! i).
    rewrite (IH (S (S t)) i).
    destruct (objs !! i); cbn; [|done]. do 3 f_equal. lia.
Qed.

(** X8: the history is in the order of receipt.  When the clock never
    runs backwards, the timestamps of the history entries never decrease
    from the oldest entry to the newest, after any sequence of events. *)
Theorem history_in_order_of_receipt (evs : list event) (i j : nat)
    (e1 e2 : pydict) :
  (∀ n m, (n ≤ m)%nat → datetime_now n ≤ datetime_now m) →
  (i ≤ j)%nat →
  read_history (run2 evs (initial_world datetime_now)) !! i = Some e1 →
  read_history (run2 evs (initial_world datetime_now)) !! j = Some e2 →
  ∃ t1 t2,
    e1 !! "timestamp" = Some (VDatetime t1) ∧
    e2 !! "timestamp" = Some (VDatetime t2) ∧
    t1 ≤ t2.
Proof.
  intros Hmono Hij. unfold read_history. rewrite history_of_events.
  cbn [initial_world initial_session session history ticks].
  rewrite deque_fold_drop by (cbn; lia). cbn [app].
  rewrite !lookup_drop, !entries_from_lookup.
  set (k := (List.length _ - HISTORY_MAXLEN)%nat).
  destruct (_ !! (k + i)%nat) as [o1|]; [|done].
  destruct (_ !! (k + j)%nat) as [o2|]; [|done].
  cbn. intros [= <-] [= <-].
  exists (datetime_now (S (1 + 2 * (k + i)))), (datetime_now (S (1 + 2 * (k + j)))).
  split; [done|]. split; [done|]. apply Hmono. lia.
Qed.

End Status.

(** ** Connecting, reconnecting and the clients *)

Section Clients.
Variable json_loads : bytes → option pyval.
Variable datetime_now : nat → Z.
Variable MQTT_BROKER : string.
Variable MQTT_PORT : Z.
Variable MQTT_USERNAME : string.
Variable MQTT_PASSWORD : string.

Abbreviation handle3 :=
  (handle json_loads datetime_now MQTT_BROKER MQTT_PORT MQTT_USERNAME MQTT_PASSWORD).
Abbreviation run3 :=
  (run json_loads datetime_now MQTT_BROKER MQTT_PORT MQTT_USERNAME MQTT_PASSWORD).
Abbreviation init_mqtt3 :=
  (init_mqtt MQTT_BROKER MQTT_PORT MQTT_USERNAME MQTT_PASSWORD).
Abbreviation reconnect_mqtt3 :=
  (reconnect_mqtt MQTT_BROKER MQTT_PORT MQTT_USERNAME MQTT_PASSWORD).
Abbreviation the_call :=
  (the_connect_call MQTT_BROKER MQTT_PORT MQTT_USERNAME MQTT_PASSWORD).
Abbreviation the_client := (configured_client MQTT_USERNAME MQTT_PASSWORD).

Lemma init_mqtt_stored (c : nat) (conn : option exn) (w : world) :
  mqtt_client (session w) = Some c →
  init_mqtt3 conn w = {| res := Ok true; final := w; observed := [] |}.
Proof. intros Hc. unfold init_mqtt. rewrite bind_read, Hc. reflexivity. Qed.

(** X9: once a client is stored, [init_mqtt] does nothing: it answers
    [True] without calling [connect] and without touching the world,
    whether or not the connection is up.  So any number of runs of the
    script leave the whole world as it was: a client that has lost its
    connection is not replaced by a rerun, only by the Reconnect
    button. *)
Theorem init_mqtt_with_client (c : nat) (conns : list (option exn)) (w : world) :
  mqtt_client (session w) = Some c →
  (∀ conn, init_mqtt3 conn w = {| res := Ok true; final := w; observed := [] |}) ∧
  run3 (ScriptRun <$> conns) w = w.
Proof.
  intros Hc. split; [intros conn; by apply (init_mqtt_stored c)|].
  induction conns as [|conn conns IH]; [done|].
  cbn [fmap list_fmap run handle]. rewrite bind_unfold.
  rewrite (init_mqtt_stored c conn w Hc). cbn [res final]. exact IH.
Qed.

Lemma the_client_fields :
  loop_started the_client = false ∧ disconnect_sent the_client = false ∧
  on_connect_set the_client = true ∧ on_disconnect_set the_client = true ∧
  on_message_set the_client = true ∧ subscriptions the_client = [].
Proof.
  unfold configured_client.
  by destruct (Py.truthy_str MQTT_USERNAME && Py.truthy_str MQTT_PASSWORD).
Qed.

Lemma init_mqtt_success (w : world) :
  mqtt_client (session w) = None →
  let o := init_mqtt3 None w in
  res o = Ok true ∧
  mqtt_client (session (final o)) = Some (List.length (clients w)) ∧
  clients (final o) = clients w ++ [set_loop true the_client] ∧
  client_ready (final o) ∧
  mqtt_connected (session (final o)) = mqtt_connected (session w) ∧
  same_telemetry w (final o).
Proof.
  intros Hnone. cbv zeta.
  destruct (init_mqtt_attempt MQTT_BROKER MQTT_PORT MQTT_USERNAME MQTT_PASSWORD
              w None Hnone) as (_ & Hres & Hs & Hc & _).
  destruct the_client_fields as (_ & _ & ? & ? & ? & _).
  unfold same_telemetry, client_ready.
  split; [done|]. rewrite Hs, Hc. split; [done|]. split; [done|].
  split; [|done].
  intros c. cbn. intros [= <-].
  exists (set_loop true the_client).
  by rewrite list_lookup_middle.
Qed.

(** X10: an attempt that the network accepts.  [init_mqtt] answers
    [True], and the session refers to a new client, which has the three
    callbacks registered and its loop running.  The connection flag is
    not written: the store says Connected only after [on_connect] has run
    with code 0. *)
Theorem init_mqtt_accepted (w : world) :
  mqtt_client (session w) = None →
  let o := init_mqtt3 None w in
  res o = Ok true ∧
  mqtt_client (session (final o)) = Some (List.length (clients w)) ∧
  clients (final o) = clients w ++ [set_loop true the_client] ∧
  client_ready (final o) ∧
  mqtt_connected (session (final o)) = mqtt_connected (session w) ∧
  same_telemetry w (final o).
Proof. apply init_mqtt_success. Qed.

(** X11: an exception of [connect] that is not an [Exception] (a
    keyboard interrupt, a system exit) is not caught: it leaves
    [init_mqtt], no error is shown, and the session is as before, with
    no client stored. *)
Theorem init_mqtt_lets_base_exceptions_through (w : world) (e : exn) :
  mqtt_client (session w) = None →
  is_Exception e = false →
  let o := init_mqtt3 (Some e) w in
  res o = Raise e ∧ session (final o) = session w ∧
  st_errors (final o) = st_errors w.
Proof.
  intros Hnone He. cbv zeta.
  destruct (init_mqtt_attempt MQTT_BROKER MQTT_PORT MQTT_USERNAME MQTT_PASSWORD
              w (Some e) Hnone) as (_ & Hs & _ & Hr).
  rewrite He in Hr. by destruct Hr.
Qed.

(** X12: retries.  As long as no attempt succeeds, every run of the
    script makes exactly one more [connect] call, always the same one,
    shows its error and leaves the session as it was: after [n] failed
    runs there are [n] calls and [n] errors, and still no client. *)
Theorem every_failed_run_retries_once (es : list exn) (w : world) :
  mqtt_client (session w) = None →
  Forall (fun e => is_Exception e = true) es →
  let w' := run3 (ScriptRun ∘ Some <$> es) w in
  session w' = session w ∧
  connects w' = connects w ++ replicate (List.length es) the_call ∧
  st_errors w' = st_errors w ++ es ∧
  List.length (clients w') = (List.length (clients w) + List.length es)%nat.
Proof.
  intros Hnone Hes. cbv zeta. revert w Hnone.
  induction Hes as [|e es He Hes IH]; intros w Hnone.
  - cbn. by rewrite !app_nil_r, Nat.add_0_r.
  - cbn [fmap list_fmap run handle compose].
    destruct (init_mqtt_attempt MQTT_BROKER MQTT_PORT MQTT_USERNAME MQTT_PASSWORD
                w (Some e) Hnone) as (Hcalls & Hs & Hc & Hr).
    rewrite He in Hr. destruct Hr as [Hres Herr].
    assert (Hfinal : final ((do connected <- init_mqtt3 (Some e); ret tt)%py w)
                     = final (init_mqtt3 (Some e) w))
      by (rewrite bind_unfold, Hres; reflexivity).
    rewrite Hfinal.
    destruct (IH (final (init_mqtt3 (Some e) w))) as (IHs & IHc & IHe & IHl).
    { by rewrite Hs. }
    rewrite IHs, IHc, IHe, IHl, Hs, Hcalls, Herr, Hc.
    rewrite length_app. cbn [List.length replicate].
    rewrite <- !app_assoc. cbn [app]. repeat split; lia.
Qed.

Lemma reconnect_mqtt_with_client c conn w :
  mqtt_client (session w) = Some c →
  res (reconnect_mqtt3 conn w) = res (init_mqtt3 conn (client_dropped c w)) ∧
  final (reconnect_mqtt3 conn w) = final (init_mqtt3 conn (client_dropped c w)).
Proof.
  intros Hc. unfold reconnect_mqtt. rewrite bind_read, Hc.
  unfold on_client, assign_mqtt_client.
  rewrite bind_assoc, bind_write. cbn [res final].
  rewrite bind_assoc, bind_write. cbn [res final].
  rewrite bind_write. by cbn [res final].
Qed.


Lemma clients_invariants_ext w w' :
  clients w' = clients w →
  mqtt_client (session w') = mqtt_client (session w) →
  one_loop w ∧ client_ready w → one_loop w' ∧ client_ready w'.
Proof.
  unfold one_loop, client_ready. intros -> ->. done.
Qed.

Lemma init_mqtt_keeps_clients_invariants conn w :
  mqtt_client (session w) = None → one_loop w →
  one_loop (final (init_mqtt3 conn w)) ∧ client_ready (final (init_mqtt3 conn w)).
Proof.
  intros Hnone Hone.
  destruct (init_mqtt_attempt MQTT_BROKER MQTT_PORT MQTT_USERNAME MQTT_PASSWORD
              w conn Hnone) as [_ Hrest].
  destruct the_client_fields as (Hloop & _).
  assert (Hold : ∀ i cl, clients w !! i = Some cl → loop_started cl = false).
  { intros i cl Hi. destruct (loop_started cl) eqn:Hl; [|done].
    specialize (Hone i cl Hi Hl). congruence. }
  destruct conn as [e|].
  - destruct Hrest as (Hs & Hc & _). unfold one_loop, client_ready.
    rewrite Hs, Hc, Hnone. split; [|done].
    intros i cl Hi Hl. apply lookup_app_Some in Hi as [Hi|[_ Hi]].
    + rewrite (Hold _ _ Hi) in Hl. done.
    + apply list_lookup_singleton_Some in Hi as [_ <-]. congruence.
  - destruct (init_mqtt_success w Hnone) as (_ & Hm & Hc & Hready & _).
    split; [|done]. unfold one_loop. rewrite Hm, Hc.
    intros i cl Hi Hl. apply lookup_app_Some in Hi as [Hi|[Hge Hi]].
    + rewrite (Hold _ _ Hi) in Hl. done.
    + apply list_lookup_singleton_Some in Hi as [Hi _]. f_equal. lia.
Qed.

Lemma final_then_ret {A : Type} (m : M A) w :
  final ((do x <- m; ret tt)%py w) = final (m w).
Proof. rewrite bind_unfold. by destruct (res (m w)). Qed.

Lemma handle_keeps_clients_invariants ev w :
  one_loop w ∧ client_ready w →
  one_loop (final (handle3 ev w)) ∧ client_ready (final (handle3 ev w)).
Proof.
  intros [Hone Hready].
  destruct ev as [raw|client rc|client rc|conn|conn]; cbn [handle].
  - apply (clients_invariants_ext w); [| |done].
    + destruct (on_message_cases json_loads datetime_now raw w) as [_ H].
      cbv zeta in H. destruct (stored_object (json_loads raw)) as [obj|].
      * destruct H as (wm & obs & Hwm & _ & -> & _). apply Hwm.
      * apply H.
    + destruct (on_message_cases json_loads datetime_now raw w) as [_ H].
      cbv zeta in H. destruct (stored_object (json_loads raw)) as [obj|].
      * destruct H as (wm & obs & Hwm & _ & -> & _). apply Hwm.
      * apply H.
  - unfold on_connect. destruct (bool_decide (rc = 0)); [|done].
    unfold one_loop, client_ready. cbn. split.
    + intros i cl Hi Hl. destruct (decide (i = client)) as [->|Hne].
      * rewrite list_lookup_alter_eq in Hi.
        destruct (clients w !! client) as [cl0|] eqn:H0; [|done].
        injection Hi as <-. by apply (Hone client cl0).
      * rewrite list_lookup_alter_ne in Hi by done. by apply (Hone i cl).
    + intros c Hc. destruct (Hready c Hc) as (cl & Hcl & ? & ? & ? & ?).
      destruct (decide (c = client)) as [->|Hne].
      * exists (subscribe MQTT_TOPIC cl).
        by rewrite list_lookup_alter_eq, Hcl.
      * exists cl. by rewrite list_lookup_alter_ne.
  - done.
  - rewrite final_then_ret.
    destruct (mqtt_client (session w)) as [c|] eqn:Hc.
    + by rewrite (init_mqtt_stored c conn w Hc).
    + by apply init_mqtt_keeps_clients_invariants.
  - rewrite final_then_ret.
    destruct (mqtt_client (session w)) as [c|] eqn:Hc.
    + destruct (reconnect_mqtt_with_client c conn w Hc) as [_ ->].
      apply init_mqtt_keeps_clients_invariants; [done|].
      intros i cl Hi Hl. exfalso. cbn in Hi.
      destruct (decide (i = c)) as [->|Hne].
      * rewrite !list_lookup_alter_eq in Hi.
        destruct (clients w !! c); [|done]. injection Hi as <-. done.
      * rewrite !list_lookup_alter_ne in Hi by done.
        specialize (Hone i cl Hi Hl). congruence.
    + assert (Hr : final (reconnect_mqtt3 conn w) = final (init_mqtt3 conn w)).
      { unfold reconnect_mqtt. rewrite bind_read, Hc. by rewrite bind_ret. }
      rewrite Hr. by apply init_mqtt_keeps_clients_invariants.
Qed.

(** X14: one session with the broker at a time.  After any sequence of
    events from process start, at most one client has its network loop
    running, and it is the client that the session refers to; and the
    client that the session refers to always exists, with its three
    callbacks registered and its loop running.  A client whose attempt
    failed, or which the Reconnect button replaced, never runs. *)
Theorem one_running_client (evs : list event) :
  one_loop (run3 evs (initial_world datetime_now)) ∧
  client_ready (run3 evs (initial_world datetime_now)).
Proof.
  assert (Hgen : ∀ w, one_loop w ∧ client_ready w →
            one_loop (run3 evs w) ∧ client_ready (run3 evs w)).
  { induction evs as [|ev evs IH]; intros w Hw; [done|].
    cbn [run]. by apply IH, handle_keeps_clients_invariants. }
  apply Hgen. split.
  - intros i cl Hi. done.
  - intros c Hc. done.
Qed.


End Clients.

(** ** The configuration block *)

Section Config.
Variable int : string → option Z.

(** X16: complete secrets win.  When the secrets have an [mqtt] table
    with a broker and a port, the configuration is taken from it, the
    user name and the password being [""] when the table lacks them, and
    the environment is not looked at: not even an [MQTT_PORT] that is no
    number has any effect. *)
Theorem config_from_complete_secrets (s mqtt : pydict) (broker port : pyval)
    (environ : gmap string string) :
  s !! "mqtt" = Some (VDict mqtt) →
  mqtt !! "broker" = Some broker →
  mqtt !! "port" = Some port →
  load_config int (Some s) environ
  = Ok {| cfg_broker := broker; cfg_port := port;
          cfg_username := default (VStr "") (mqtt !! "username");
          cfg_password := default (VStr "") (mqtt !! "password") |}.
Proof.
  intros Hs Hb Hp. unfold load_config, config_from_secrets, st_secrets.
  cbn [Py.getitem]. rewrite Hs. cbn [rbind Py.getitem].
  rewrite Hb, Hp. cbn [rbind]. by rewrite !get_dict.
Qed.

Lemma config_from_secrets_incomplete secrets :
  secrets_complete secrets = false →
  ∃ e, config_from_secrets secrets = Raise e.
Proof.
  unfold secrets_complete, config_from_secrets, st_secrets.
  destruct secrets as [s|]; [|by eexists].
  cbn [Py.getitem].
  destruct (s !! "mqtt") as [[| | | | | |mqtt|]|]; try by eexists.
  cbn [rbind Py.getitem].
  destruct (mqtt !! "broker") as [b|]; [|by eexists].
  destruct (mqtt !! "port") as [p|]; [|by eexists].
  by rewrite !bool_decide_true by eauto.
Qed.

(** X17: incomplete secrets count for nothing.  When there is no secrets
    file, no [mqtt] table, or the table lacks the broker or the port, all
    four values come from the environment, with the defaults
    [localhost], [1883], [""] and [""]: a user name or a password that the
    secrets do have is dropped.  If then [MQTT_PORT] is not a number, the
    [ValueError] of [int] leaves the block. *)
Theorem config_from_environment (secrets : option pydict)
    (environ : gmap string string) :
  secrets_complete secrets = false →
  load_config int secrets environ
  = match int (default "1883" (environ !! "MQTT_PORT")) with
    | Some port =>
        Ok {| cfg_broker := VStr (default "localhost" (environ !! "MQTT_BROKER"));
              cfg_port := VInt port;
              cfg_username := VStr (default "" (environ !! "MQTT_USERNAME"));
              cfg_password := VStr (default "" (environ !! "MQTT_PASSWORD")) |}
    | None => Raise ValueError
    end.
Proof.
  intros Hs. unfold load_config.
  destruct (config_from_secrets_incomplete secrets Hs) as [e ->].
  reflexivity.
Qed.

End Config.

(** ** The signal indicators *)

Section Indicators.
Variable json_loads : bytes → option pyval.
Variable datetime_now : nat → Z.
Variable MQTT_BROKER : string.
Variable MQTT_PORT : Z.
Variable MQTT_USERNAME : string.
Variable MQTT_PASSWORD : string.

Abbreviation handle4 :=
  (handle json_loads datetime_now MQTT_BROKER MQTT_PORT MQTT_USERNAME MQTT_PASSWORD).
Abbreviation run4 :=
  (run json_loads datetime_now MQTT_BROKER MQTT_PORT MQTT_USERNAME MQTT_PASSWORD).


Lemma handle_signal_kept ev w k :
  has_signal json_loads ev = false →
  k = "rssi" ∨ k = "snr" ∨ k = "gateway" →
  latest_data (session (final (handle4 ev w))) !! k
  = latest_data (session w) !! k.
Proof.
  intros Hev Hk.
  destruct ev as [raw|client rc|client rc|conn|conn]; cbn [handle].
  - cbn [has_signal] in Hev.
    destruct (json_loads raw) as [p|] eqn:Hraw.
    + destruct (is_dict p) eqn:Hp.
      * destruct p as [| | | | | |payload|]; try done.
        rewrite (on_message_dict_final _ _ _ _ _ Hraw).
        rewrite object_written_other
          by (destruct Hk as [->|[->| ->]]; (done || not_in_list)).
        assert (Hsig : signal_written payload (device_written payload w)
                       = device_written payload w).
        { unfold signal_written.
          by destruct (payload !! "rxInfo")
            as [[| | | | |[|[| | | | | |rx|] l]| |]|]. }
        rewrite Hsig. unfold device_written.
        destruct (payload !! "devEUI"); [|done]. cbn.
        rewrite lookup_insert_ne; [done|]. by destruct Hk as [->|[->| ->]].
      * by rewrite (on_message_quiet_not_dict _ _ raw p w Hraw Hp).
    + unfold on_message, on_message_try, loads.
      rewrite try_except_unfold. by rewrite Hraw.
  - unfold on_connect. by destruct (bool_decide (rc = 0)).
  - done.
  - rewrite final_then_ret.
    destruct (init_mqtt_connection_frame MQTT_BROKER MQTT_PORT MQTT_USERNAME
                MQTT_PASSWORD conn w) as [Hf _].
    by rewrite (cf_latest _ _ Hf).
  - rewrite final_then_ret.
    destruct (reconnect_mqtt_connection_frame MQTT_BROKER MQTT_PORT MQTT_USERNAME
                MQTT_PASSWORD conn w) as [Hf _].
    by rewrite (cf_latest _ _ Hf).
Qed.

(** X19: until a gateway is heard of.  As long as no message has had an
    [rxInfo] that starts with a dict, whatever else has happened, the
    signal fields are the placeholders of process start, [0], [0] and
    ["--"], and the indicators of the main loop read them as a signal:
    green for the RSSI and yellow for the SNR. *)
Theorem indicators_before_first_signal (evs : list event) :
  Forall (fun ev => has_signal json_loads ev = false) evs →
  let latest := latest_data (session (run4 evs (initial_world datetime_now))) in
  latest !! "rssi" = Some (VInt 0) ∧
  latest !! "snr" = Some (VInt 0) ∧
  latest !! "gateway" = Some (VStr "--") ∧
  rssi_status (VInt 0) = Ok "🟢" ∧
  snr_status (VInt 0) = Ok "🟡".
Proof.
  intros Hevs. cbv zeta.
  assert (Hgen : ∀ w k, k = "rssi" ∨ k = "snr" ∨ k = "gateway" →
            latest_data (session (run4 evs w)) !! k
            = latest_data (session w) !! k).
  { induction Hevs as [|ev evs Hev Hevs IH]; intros w k Hk; [done|].
    cbn [run]. rewrite IH by done. by apply handle_signal_kept. }
  rewrite !Hgen by auto. done.
Qed.

End Indicators.

(** ** The time of the last update *)

Section LastUpdate.
Variable json_loads : bytes → option pyval.
Variable datetime_now : nat → Z.
Variable MQTT_BROKER : string.
Variable MQTT_PORT : Z.
Variable MQTT_USERNAME : string.
Variable MQTT_PASSWORD : string.

Definition timestamp_is_datetime (s : session_state) : Prop :=
  ∃ t, latest_data s !! "timestamp" = Some (VDatetime t).

Lemma timestamp_store1 obj w :
  timestamp_is_datetime (session (store1 datetime_now obj w)).
Proof.
  exists (datetime_now (ticks w)). cbn.
  apply lookup_union_Some_l. unfold sample_update. by simplify_map_eq.
Qed.

Lemma timestamp_kept w w' :
  readings_kept w w' →
  timestamp_is_datetime (session w) → timestamp_is_datetime (session w').
Proof.
  intros Hk [t Ht]. exists t. rewrite (rk_latest _ _ Hk); [done|].
  by vm_compute.
Qed.

(** X20: the time of the last update is always a time.  After any
    sequence of events from process start, and at every moment a reader
    can look, [latest_data] has a [timestamp] that is a datetime, whatever
    the payloads held: the only writer of the field takes it from the
    clock, never from the message.  So the [strftime] of the main loop
    always has a datetime to format, unlike the signal fields, which are
    stored as they came. *)
Theorem last_update_is_a_datetime (evs : list event) :
  Forall (fun w => timestamp_is_datetime (session w))
    (initial_world datetime_now
       :: visible json_loads datetime_now MQTT_BROKER MQTT_PORT MQTT_USERNAME
            MQTT_PASSWORD evs (initial_world datetime_now)) ∧
  timestamp_is_datetime
    (session (run json_loads datetime_now MQTT_BROKER MQTT_PORT MQTT_USERNAME
                MQTT_PASSWORD evs (initial_world datetime_now))).
Proof.
  assert (Hinit : timestamp_is_datetime (session (initial_world datetime_now))).
  { exists (datetime_now 0). cbn. unfold initial_latest_data. by simplify_map_eq. }
  destruct (always_run json_loads datetime_now MQTT_BROKER MQTT_PORT
              MQTT_USERNAME MQTT_PASSWORD timestamp_is_datetime) with
    (evs := evs) (w := initial_world datetime_now) as [Hr Hv]; try done.
  - apply timestamp_kept.
  - intros obj w _. apply timestamp_store1.
  - intros obj w _. destruct (timestamp_store1 obj w) as [t Ht]. by exists t.
  - intros obj w _. destruct (timestamp_store1 obj w) as [t Ht]. by exists t.
  - split; [|done]. by constructor.
Qed.

End LastUpdate.

(** ** The further properties on the example inputs *)


Lemma on_message_not_a_dict_witness :
  Samples.json_loads [Byte.x62] = Some Samples.a_list ∧
  is_dict Samples.a_list = false ∧
  Samples.on_message [Byte.x62] Demo.world0
  = {| res := Ok tt; final := Demo.world0; observed := [] |}.
Proof.
  split; [reflexivity|]. split; [reflexivity|].
  apply (on_message_not_a_dict Samples.json_loads Demo.datetime_now [Byte.x62]
           Samples.a_list Demo.world0); reflexivity.
Defined.



Lemma store_never_forgets_witness :
  (List.length (history (session Demo.world0)) ≤ HISTORY_MAXLEN)%nat ∧
  (List.length (history (session
     (Samples.run [Message [Byte.x61]; ReconnectButton (Some OSError)]
        Demo.world0))) ≤ HISTORY_MAXLEN)%nat.
Proof.
  split; [cbn; unfold HISTORY_MAXLEN; lia|].
  refine (proj1 (proj2 (store_never_forgets Samples.json_loads Demo.datetime_now
            Demo.MQTT_BROKER Demo.MQTT_PORT Demo.MQTT_USERNAME Demo.MQTT_PASSWORD
            [Message [Byte.x61]; ReconnectButton (Some OSError)] Demo.world0 _))).
  cbn. unfold HISTORY_MAXLEN. lia.
Defined.

Lemma history_in_order_of_receipt_witness :
  (∀ n m, (n ≤ m)%nat → Demo.datetime_now n ≤ Demo.datetime_now m) ∧
  ∃ t1 t2,
    history_entry Demo.object1 (Demo.datetime_now 2) !! "timestamp"
      = Some (VDatetime t1) ∧
    history_entry Demo.object2 (Demo.datetime_now 4) !! "timestamp"
      = Some (VDatetime t2) ∧
    t1 ≤ t2.
Proof.
  assert (Hmono : ∀ n m, (n ≤ m)%nat → Demo.datetime_now n ≤ Demo.datetime_now m)
    by (intros n m Hnm; unfold Demo.datetime_now; lia).
  split; [exact Hmono|].
  apply (history_in_order_of_receipt Demo.json_loads Demo.datetime_now
           Demo.MQTT_BROKER Demo.MQTT_PORT Demo.MQTT_USERNAME Demo.MQTT_PASSWORD
           [Message [Byte.x31]; Message [Byte.x32]] 0 1
           (history_entry Demo.object1 (Demo.datetime_now 2))
           (history_entry Demo.object2 (Demo.datetime_now 4)) Hmono);
    [lia|vm_compute; reflexivity|vm_compute; reflexivity].
Defined.

Lemma init_mqtt_with_client_witness :
  mqtt_client (session Samples.connected) = Some 0%nat ∧
  Samples.run (ScriptRun <$> [Some OSError; None; Some KeyboardInterrupt])
    Samples.connected = Samples.connected.
Proof.
  split; [reflexivity|].
  exact (proj2 (init_mqtt_with_client Samples.json_loads Demo.datetime_now
           Demo.MQTT_BROKER Demo.MQTT_PORT Demo.MQTT_USERNAME Demo.MQTT_PASSWORD
           0 [Some OSError; None; Some KeyboardInterrupt] Samples.connected
           eq_refl)).
Defined.

Lemma init_mqtt_accepted_witness :
  mqtt_client (session Demo.world0) = None ∧
  res (Demo.init_mqtt None Demo.world0) = Ok true ∧
  mqtt_connected (session (final (Demo.init_mqtt None Demo.world0))) = false.
Proof.
  split; [reflexivity|].
  pose proof (init_mqtt_accepted Demo.MQTT_BROKER Demo.MQTT_PORT
                Demo.MQTT_USERNAME Demo.MQTT_PASSWORD Demo.world0 eq_refl)
    as (Hres & _ & _ & _ & Hconn & _).
  split; [exact Hres|exact Hconn].
Defined.

Lemma init_mqtt_lets_base_exceptions_through_witness :
  mqtt_client (session Demo.world0) = None ∧
  is_Exception KeyboardInterrupt = false ∧
  res (Demo.init_mqtt (Some KeyboardInterrupt) Demo.world0)
    = Raise KeyboardInterrupt.
Proof.
  split; [reflexivity|]. split; [reflexivity|].
  exact (proj1 (init_mqtt_lets_base_exceptions_through Demo.MQTT_BROKER
           Demo.MQTT_PORT Demo.MQTT_USERNAME Demo.MQTT_PASSWORD Demo.world0
           KeyboardInterrupt eq_refl eq_refl)).
Defined.

Lemma every_failed_run_retries_once_witness :
  mqtt_client (session Demo.world0) = None ∧
  Forall (fun e => is_Exception e = true) [OSError; OSError; ValueError] ∧
  session (Demo.run (ScriptRun ∘ Some <$> [OSError; OSError; ValueError])
             Demo.world0) = session Demo.world0 ∧
  List.length (connects (Demo.run (ScriptRun ∘ Some <$> [OSError; OSError; ValueError])
                           Demo.world0)) = 3%nat.
Proof.
  assert (Hes : Forall (fun e => is_Exception e = true) [OSError; OSError; ValueError])
    by (repeat constructor).
  split; [reflexivity|]. split; [exact Hes|].
  pose proof (every_failed_run_retries_once Demo.json_loads Demo.datetime_now
                Demo.MQTT_BROKER Demo.MQTT_PORT Demo.MQTT_USERNAME
                Demo.MQTT_PASSWORD [OSError; OSError; ValueError] Demo.world0
                eq_refl Hes) as (Hs & Hc & _).
  split; [exact Hs|].
  unfold Demo.run. rewrite Hc. reflexivity.
Defined.



Lemma config_from_complete_secrets_witness :
  Samples.secrets !! "mqtt" = Some (VDict Samples.mqtt_table) ∧
  load_config Samples.int (Some Samples.secrets) Samples.environ
  = Ok {| cfg_broker := VStr "broker.example.org"; cfg_port := VInt 8883;
          cfg_username := VStr ""; cfg_password := VStr "" |}.
Proof.
  split; [reflexivity|].
  apply (config_from_complete_secrets Samples.int Samples.secrets
           Samples.mqtt_table (VStr "broker.example.org") (VInt 8883)
           Samples.environ); reflexivity.
Defined.

Lemma config_from_environment_witness :
  secrets_complete (Some Samples.partial_secrets) = false ∧
  load_config Samples.int (Some Samples.partial_secrets) Samples.environ
  = Ok {| cfg_broker := VStr "localhost"; cfg_port := VInt 8883;
          cfg_username := VStr ""; cfg_password := VStr "" |}.
Proof.
  split; [reflexivity|].
  apply (config_from_environment Samples.int (Some Samples.partial_secrets)
           Samples.environ).
  reflexivity.
Defined.


Lemma indicators_before_first_signal_witness :
  Forall (fun ev => has_signal Demo.json_loads ev = false)
    [Message [Byte.x31]; Message [Byte.x33]; ScriptRun None] ∧
  latest_data (session (Demo.run [Message [Byte.x31]; Message [Byte.x33];
                                  ScriptRun None] Demo.world0)) !! "rssi"
  = Some (VInt 0).
Proof.
  assert (H : Forall (fun ev => has_signal Demo.json_loads ev = false)
                [Message [Byte.x31]; Message [Byte.x33]; ScriptRun None])
    by (repeat constructor).
  split; [exact H|].
  exact (proj1 (indicators_before_first_signal Demo.json_loads Demo.datetime_now
           Demo.MQTT_BROKER Demo.MQTT_PORT Demo.MQTT_USERNAME Demo.MQTT_PASSWORD
           _ H)).
Defined.
